(** * telltemp: a shallow embedding of [telltemp.py]

    The program receives temperature and humidity readings from a Tellstick
    through the tellcore SDK and prints them or appends them to a CSV file.
    Each Python class is a module below; methods take the object ([self])
    and return the updated object inside the [io] monad, which threads the
    process environment (standard output and the file system) and carries
    Python exceptions. *)

From Stdlib Require Import ZArith String Ascii DecimalString.
From stdpp Require Import base option list strings gmap.

Local Open Scope string_scope.
Local Open Scope list_scope.
Local Open Scope Z_scope.

(** ** Python values and exceptions *)

(** The dynamically typed values that reach a comparison or a path argument:
    argparse stores [None], a string (a default) or a list ([nargs=1]). *)
Inductive pyval :=
  | PNone
  | PStr (s : string)
  | PList (l : list string).

(** [a == b] on those values: values of different types are never equal. *)
Definition py_eq (a b : pyval) : bool :=
  match a, b with
  | PNone, PNone => true
  | PStr s, PStr t => bool_decide (s = t)
  | PList l, PList k => bool_decide (l = k)
  | _, _ => false
  end.

(** Truth value of an object: [None], [''] and [[]] are false. *)
Definition py_truthy (a : pyval) : bool :=
  match a with
  | PNone => false
  | PStr s => negb (bool_decide (s = ""))
  | PList l => negb (bool_decide (l = []))
  end.

Inductive exn :=
  | SystemExit (status : Z)
  | NameError (name : string)
  | TypeError
  | IndexError
  | AttributeError (attr : string)
  | ValueError
  | IOError (strerror : string)
  | TelldusError.

(** [str(n)], [%d] and [{}] of an integer. *)
Definition py_int_str (n : Z) : string := NilZero.string_of_int (Z.to_int n).

(** The backspace character, [\b]. *)
Definition backspace : string := String (ascii_of_nat 8) "".

(** ** The process environment *)

(** One call that reaches standard output. *)
Inductive event :=
  | Printed (text end_ : string)
  | Flush.

(** A cell of a CSV row as handed to [csv.writer.writerow]. *)
Inductive cell :=
  | CInt (n : Z)
  | CStr (s : string).

Definition row := list cell.

(** What a path names.  [Unopenable] stands for every path on which [open]
    raises [IOError] (a directory, a file without write permission, a path
    whose parent is missing): [visible] is what [os.path.exists] answers and
    [strerror] is the text of the error.  A path absent from the map does
    not exist and can be created. *)
Inductive node :=
  | RegularFile (rows : list row)
  | Unopenable (visible : bool) (strerror : string).

Record world := World {
  stdout : list event;
  files : gmap string node
}.

Definition emit (e : event) (w : world) : world :=
  {| stdout := stdout w ++ [e]; files := files w |}.

(** ** The [io] monad: environment passing with exceptions *)

Inductive outcome (A : Type) :=
  | Return (a : A)
  | Raise (e : exn).
Arguments Return {A} a.
Arguments Raise {A} e.

Definition io (A : Type) : Type := world -> world * outcome A.

Definition ret {A} (a : A) : io A := fun w => (w, Return a).

Definition raise {A} (e : exn) : io A := fun w => (w, Raise e).

Definition bind {A B} (m : io A) (k : A -> io B) : io B :=
  fun w =>
    match m w with
    | (w', Return a) => k a w'
    | (w', Raise e) => (w', Raise e)
    end.

(** [try: m except IOError as error: h error] *)
Definition try_except_IOError {A} (m : io A) (h : string -> io A) : io A :=
  fun w =>
    match m w with
    | (w', Raise (IOError msg)) => h msg w'
    | r => r
    end.

Declare Scope io_scope.
Delimit Scope io_scope with io.
Notation "'let*' x ':=' m 'in' k" := (bind m (fun x => k))
  (at level 10, x name, m at level 99, k at level 200) : io_scope.
Notation "m ';;' k" := (bind m (fun _ => k))
  (at level 100, k at level 200, right associativity) : io_scope.
Local Open Scope io_scope.

(** [print(text, end=end_)]; [print(text)] is [print text "\n"]. *)
Definition print (text end_ : string) : io unit :=
  fun w => (emit (Printed text end_) w, Return tt).

Definition newline : string := String (ascii_of_nat 10) "".

Definition println (text : string) : io unit := print text newline.

(** [sys.stdout.flush()] *)
Definition flush : io unit := fun w => (emit Flush w, Return tt).

(** [exit(status)] raises [SystemExit]. *)
Definition exit {A} (status : Z) : io A := raise (SystemExit status).

(** [l[i]] on a list: negative indices count from the end. *)
Definition py_getitem {A} (l : list A) (i : Z) : io A :=
  let n := Z.of_nat (length l) in
  let j := if i <? 0 then i + n else i in
  if (0 <=? j) && (j <? n) then
    match l !! Z.to_nat j with
    | Some x => ret x
    | None => raise IndexError
    end
  else raise IndexError.

(** [for i in range(n): self = body(self)] *)
Fixpoint for_range {A} (n : nat) (body : A -> io A) (self : A) : io A :=
  match n with
  | O => ret self
  | S n' => let* self := body self in for_range n' body self
  end.

(** The events a computation appends to standard output from [w]. *)
Definition emitted {A} (m : io A) (w : world) : list event :=
  drop (length (stdout w)) (stdout (fst (m w))).

(** The status with which the process ends: an uncaught exception other
    than [SystemExit] prints a traceback and gives status 1. *)
Definition exit_status {A} (r : outcome A) : Z :=
  match r with
  | Return _ => 0
  | Raise (SystemExit status) => status
  | Raise _ => 1
  end.

(** ** class Heartbeat *)

Module Heartbeat.

Definition HEARTBEAT_CHARS : list string := ["-"; "\"; "|"; "/"].

Record t := Make {
  current_char : Z;
  flush_output : bool
}.

Definition __init__ : t := {| current_char := 0; flush_output := false |}.

Definition erase (self : t) : io t :=
  if flush_output self then
    print backspace "";; ret self
  else
    ret {| current_char := current_char self; flush_output := true |}.

Definition __get_next_char (self : t) : io (t * string) :=
  let* char := py_getitem HEARTBEAT_CHARS (current_char self) in
  ret ({| current_char := (current_char self + 1) mod Z.of_nat (length HEARTBEAT_CHARS);
          flush_output := flush_output self |}, char).

Definition __print_next (self : t) : io t :=
  let* self := erase self in
  let* next := __get_next_char self in
  let '(self, char) := next in
  print char "";;
  flush;;
  ret self.

Definition dont_flush (self : t) : io t :=
  ret {| current_char := current_char self; flush_output := false |}.

Definition clean_up (self : t) : io t :=
  for_range 3 erase self.

Definition print_output (self : t) : io t :=
  __print_next self.

(** An erase is the backspace printed by [erase]. *)
Definition is_erase (e : event) : bool :=
  match e with
  | Printed text end_ => bool_decide (text = backspace) && bool_decide (end_ = "")
  | Flush => false
  end.

(** A glyph is one of [HEARTBEAT_CHARS] printed without a line end. *)
Definition glyph_of (e : event) : option string :=
  match e with
  | Printed text end_ =>
      if bool_decide (text ∈ HEARTBEAT_CHARS) && bool_decide (end_ = "")
      then Some text else None
  | Flush => None
  end.

Definition erases (tr : list event) : nat := length (filter (fun e => is_erase e = true) tr).

Definition glyphs (tr : list event) : list string := omap glyph_of tr.

End Heartbeat.

(** ** tellcore.constants *)

(** Modelled from the spec: the datatype codes of the tellcore SDK, which is
    not part of the repository (1 is temperature, 2 is humidity; they are
    also the keys of [SensorData.DATATYPE_MAP]). *)
Module const.
Definition TELLSTICK_TEMPERATURE : Z := 1.
Definition TELLSTICK_HUMIDITY : Z := 2.
End const.

(** ** Files *)

(** A file object: the path it was opened on and whether it was closed. *)
Record file := File {
  name : string;
  closed : bool
}.

(** [os.path.exists(path)]: a path that is not a string raises [TypeError]. *)
Definition os_path_exists (path : pyval) : io bool :=
  match path with
  | PStr p =>
      fun w =>
        (w, Return match files w !! p with
                   | Some (RegularFile _) => true
                   | Some (Unopenable visible _) => visible
                   | None => false
                   end)
  | _ => raise TypeError
  end.

(** [open(path, mode, newline='')] for the modes ['w'] and ['a']: creates the
    file when it is absent, and truncates it in mode ['w']. *)
Definition open_ (path : pyval) (mode : string) : io file :=
  match path with
  | PStr p =>
      fun w =>
        match files w !! p with
        | Some (Unopenable _ strerror) => (w, Raise (IOError strerror))
        | Some (RegularFile rows) =>
            ({| stdout := stdout w;
                files := <[p := RegularFile (if bool_decide (mode = "w") then [] else rows)]> (files w) |},
             Return {| name := p; closed := false |})
        | None =>
            ({| stdout := stdout w; files := <[p := RegularFile []]> (files w) |},
             Return {| name := p; closed := false |})
        end
  | _ => raise TypeError
  end.

(** [csv.writer(f).writerow(r)]: the row goes to the end of the file. *)
Definition writerow (f : file) (r : row) : io unit :=
  if closed f then raise ValueError
  else
    fun w =>
      match files w !! name f with
      | Some (RegularFile rows) =>
          ({| stdout := stdout w; files := <[name f := RegularFile (rows ++ [r])]> (files w) |},
           Return tt)
      | _ => (w, Raise (IOError "Bad file descriptor"))
      end.

(** The rows of the file at [path], when it is a regular file. *)
Definition file_rows (w : world) (path : string) : option (list row) :=
  match files w !! path with
  | Some (RegularFile rows) => Some rows
  | _ => None
  end.

(** [str(v)] as the [%s] conversion renders it. *)
Definition py_str (v : pyval) : string :=
  match v with
  | PNone => "None"
  | PStr s => s
  | PList l => "[" +:+ String.concat ", " (map (fun s => "'" +:+ s +:+ "'") l) +:+ "]"
  end.

(** ** The logger interface *)

(** What [SensorEventHandler] and the [with] statement call on a logger. *)
Class LoggerClass (L : Type) := {
  __enter__ : L -> io L;
  __exit__ : L -> io L;
  log_sensor_data : L -> string -> string -> Z -> Z -> string -> Z -> Z -> io L
}.

(** ** class Logger *)

Module Logger.

(** The dummy logger keeps no attribute. *)
Record t := Make { }.

Definition __init__ (logfile : pyval) (force_create : bool) : t := Make.

Definition __enter__ (self : t) : io t := ret self.

Definition __exit__ (self : t) : io t := ret self.

Definition log_sensor_data (self : t) (protocol model : string) (id_ datatype : Z)
    (value : string) (timestamp cid : Z) : io t :=
  ret self.

End Logger.

#[export] Instance Logger_LoggerClass : LoggerClass Logger.t := {
  __enter__ := Logger.__enter__;
  __exit__ := Logger.__exit__;
  log_sensor_data := Logger.log_sensor_data
}.

(** ** class CSVLogger *)

Module CSVLogger.

(** [csvfile] and [csvwriter] are assigned by [__open_log_file] only;
    [csvwriter] is the writer made on [csvfile] and writes through it. *)
Record t := Make {
  logfile : pyval;
  force_create : bool;
  csvfile : option file;
  csvwriter : option file
}.

Definition __init__ (logfile : pyval) (force_create : bool) : t :=
  {| logfile := logfile; force_create := force_create;
     csvfile := None; csvwriter := None |}.

Definition HEADER : row :=
  [CStr "Timestamp"; CStr "ID"; CStr "Temperature"; CStr "Humidity"].

Definition __open_log_file (self : t) : io t :=
  let* exists_ := os_path_exists (logfile self) in
  let new_file := negb exists_ in
  let mode := if force_create self then "w" else "a" in
  try_except_IOError
    (let* f := open_ (logfile self) mode in
     let self := {| logfile := logfile self; force_create := force_create self;
                    csvfile := Some f; csvwriter := Some f |} in
     if new_file || bool_decide (mode = "w") then
       writerow f HEADER;; ret self
     else ret self)
    (fun error =>
       println ("Could not open logfile " +:+ py_str (logfile self) +:+ ": " +:+ error);;
       exit 1).

Definition __close_log_file (self : t) : io t :=
  match csvfile self with
  | Some f =>
      let f := {| name := name f; closed := true |} in
      ret {| logfile := logfile self; force_create := force_create self;
             csvfile := Some f; csvwriter := Some f |}
  | None => raise (AttributeError "csvfile")
  end.

Definition __enter__ (self : t) : io t := __open_log_file self.

Definition __exit__ (self : t) : io t := __close_log_file self.

Definition log_sensor_data (self : t) (protocol model : string) (id_ datatype : Z)
    (value : string) (timestamp cid : Z) : io t :=
  let temperature := "" in
  let humidity := "" in
  let columns :=
    if datatype =? const.TELLSTICK_TEMPERATURE then Some (value, humidity)
    else if datatype =? const.TELLSTICK_HUMIDITY then Some (temperature, value)
    else None in
  match columns with
  | None => ret self
  | Some (temperature, humidity) =>
      match csvwriter self with
      | Some f =>
          writerow f [CInt timestamp; CInt id_; CStr temperature; CStr humidity];;
          ret self
      | None => raise (AttributeError "csvwriter")
      end
  end.

End CSVLogger.

#[export] Instance CSVLogger_LoggerClass : LoggerClass CSVLogger.t := {
  __enter__ := CSVLogger.__enter__;
  __exit__ := CSVLogger.__exit__;
  log_sensor_data := CSVLogger.log_sensor_data
}.

(** ** class SensorData *)

Module SensorData.

Record t := Make {
  protocol : string;
  model : string;
  id_ : Z;
  datatype : Z;
  value : string;
  timestamp : Z;
  cid : Z
}.

Definition DATATYPE_MAP : gmap Z string :=
  <[1 := "temperature"]> (<[2 := "humidity"]> ∅).

Definition datatype_to_string (datatype : Z) : string :=
  match DATATYPE_MAP !! datatype with
  | Some s => s
  | None => "unknown"
  end.

Section Str.
(** [time.strftime("%F %T", time.localtime(t))]: it depends on the time
    zone of the machine. *)
Variable strftime_localtime : Z -> string.

Definition __str__ (self : t) : string :=
  strftime_localtime (timestamp self) +:+ " SENSOR " +:+ py_int_str (id_ self)
    +:+ " [" +:+ protocol self +:+ "/" +:+ model self +:+ "] "
    +:+ datatype_to_string (datatype self) +:+ " value: " +:+ value self.
End Str.

End SensorData.

(** ** class SensorEventHandler *)

Module SensorEventHandler.

Record t (L : Type) := Make {
  logger : L;
  heartbeat : option Heartbeat.t;
  sensors : option (list Z);
  silent : bool;
  verbose : bool
}.
Arguments Make {L}.
Arguments logger {L}.
Arguments heartbeat {L}.
Arguments sensors {L}.
Arguments silent {L}.
Arguments verbose {L}.

Definition set_heartbeat {L} (self : t L) (hb : Heartbeat.t) : t L :=
  {| logger := logger self; heartbeat := Some hb; sensors := sensors self;
     silent := silent self; verbose := verbose self |}.

Definition set_logger {L} (self : t L) (l : L) : t L :=
  {| logger := l; heartbeat := heartbeat self; sensors := sensors self;
     silent := silent self; verbose := verbose self |}.

(** [not self.sensors or id_ in self.sensors]: [None] and the empty list
    are both false. *)
Definition accepts (sensors : option (list Z)) (id_ : Z) : bool :=
  match sensors with
  | None => true
  | Some l => bool_decide (l = []) || bool_decide (id_ ∈ l)
  end.

Section Methods.
Context {L : Type} `{LoggerClass L}.
Variable strftime_localtime : Z -> string.

Definition __init__ (logger : L) (heartbeat : option Heartbeat.t)
    (sensors : option (list Z)) (silent verbose : bool) : t L :=
  Make logger heartbeat sensors silent verbose.

Definition print_sensor_data (self : t L) (sensor_data : SensorData.t) : io (t L) :=
  if silent self then ret self
  else
    let* self :=
      match heartbeat self with
      | Some hb => let* hb := Heartbeat.erase hb in ret (set_heartbeat self hb)
      | None => ret self
      end in
    println (SensorData.__str__ strftime_localtime sensor_data);;
    match heartbeat self with
    | Some hb => let* hb := Heartbeat.dont_flush hb in ret (set_heartbeat self hb)
    | None => ret self
    end.

Definition handle_sensor_event (self : t L) (protocol model : string)
    (id_ datatype : Z) (value : string) (timestamp cid : Z) : io (t L) :=
  if accepts (sensors self) id_ then
    let sensor_data := SensorData.Make protocol model id_ datatype value timestamp cid in
    let* self := print_sensor_data self sensor_data in
    let* l := log_sensor_data (logger self) protocol model id_ datatype value timestamp cid in
    ret (set_logger self l)
  else if verbose self then
    println ("Ignoring sensor with ID " +:+ py_int_str id_);; ret self
  else ret self.

Definition handle_loop (self : t L) : io (t L) :=
  match heartbeat self with
  | Some hb => let* hb := Heartbeat.print_output hb in ret (set_heartbeat self hb)
  | None => ret self
  end.

Definition handle_exit (self : t L) : io (t L) :=
  match heartbeat self with
  | Some hb => let* hb := Heartbeat.clean_up hb in ret (set_heartbeat self hb)
  | None => ret self
  end.
End Methods.

End SensorEventHandler.

(** ** tellcore.telldus *)

(** The objects the SDK hands to the program.  The SDK is outside the
    repository: a sensor is what its methods answer, and the callback
    dispatcher is the batches of sensor events it has queued at each poll. *)
Module td.

Record SensorValue := MakeValue {
  value : string;
  timestamp : Z
}.

Record Sensor := MakeSensor {
  id : Z;
  protocol : string;
  model : string;
  has_value : Z -> bool;
  value_of : Z -> outcome SensorValue
}.

(** The arguments of one sensor event callback. *)
Record sensor_event := MakeEvent {
  ev_protocol : string;
  ev_model : string;
  ev_id : Z;
  ev_datatype : Z;
  ev_value : string;
  ev_timestamp : Z;
  ev_cid : Z
}.

Record TelldusCore := MakeCore {
  sensors : list Sensor;
  pending : list (list sensor_event)
}.

(** [sensor.value(datatype)] *)
Definition sensor_value (sensor : Sensor) (datatype : Z) : io SensorValue :=
  fun w => (w, value_of sensor datatype).

End td.

(** ** String formatting *)

(** [{:<n}]: the text, padded with spaces on the right up to [n] characters. *)
Definition ljust (n : nat) (s : string) : string :=
  s +:+ string_of_list_ascii (replicate (n - String.length s) " "%char).

(** [{:<5d} {:<15} {:<22} {:<9s}{:<9s}{}], the row of one sensor. *)
Definition format_row (id : Z) (protocol model temperature humidity timestamp_formatted : string)
    : string :=
  ljust 5 (py_int_str id) +:+ " " +:+ ljust 15 protocol +:+ " " +:+ ljust 22 model +:+ " "
    +:+ ljust 9 temperature +:+ ljust 9 humidity +:+ timestamp_formatted.

(** ** list_sensors *)

Section ListSensors.
Variable strftime_localtime : Z -> string.

(** Lines 166 to 175: the temperature column, the humidity column and the
    timestamp of one sensor.  [timestamp] starts as the empty string, here
    [None]. *)
Definition sensor_columns (sensor : td.Sensor) : io (string * string * option Z) :=
  let '(temperature, humidity, timestamp) := ("", "", @None Z) in
  let* after_temperature :=
    if td.has_value sensor const.TELLSTICK_TEMPERATURE then
      let* sensor_value := td.sensor_value sensor const.TELLSTICK_TEMPERATURE in
      ret (td.value sensor_value, Some (td.timestamp sensor_value))
    else ret (temperature, timestamp) in
  let '(temperature, timestamp) := after_temperature in
  let* after_humidity :=
    if td.has_value sensor const.TELLSTICK_HUMIDITY then
      let* sensor_value := td.sensor_value sensor const.TELLSTICK_TEMPERATURE in
      let humidity := td.value sensor_value in
      if match timestamp with None => true | Some ts => ts =? 0 end then
        ret (humidity, Some (td.timestamp sensor_value))
      else ret (humidity, timestamp)
    else ret (humidity, timestamp) in
  let '(humidity, timestamp) := after_humidity in
  ret (temperature, humidity, timestamp).

(** Lines 176 to 181: a sensor without a value is skipped, the others get
    a row of the table. *)
Definition sensor_row (sensor : td.Sensor) : io (option string) :=
  let* columns := sensor_columns sensor in
  let '(temperature, humidity, timestamp) := columns in
  if negb (negb (bool_decide (temperature = "")) || negb (bool_decide (humidity = ""))) then
    ret None
  else
    match timestamp with
    | None => raise TypeError
    | Some ts =>
        let timestamp_formatted := strftime_localtime ts in
        ret (Some (format_row (td.id sensor) (td.protocol sensor) (td.model sensor)
                     temperature humidity timestamp_formatted))
    end.

Fixpoint for_each_sensor (sensors : list td.Sensor) : io unit :=
  match sensors with
  | [] => ret tt
  | sensor :: rest =>
      let* output := sensor_row sensor in
      match output with
      | Some output => println output
      | None => ret tt
      end;;
      for_each_sensor rest
  end.

Definition list_sensors (core : td.TelldusCore) : io unit :=
  let sensors := td.sensors core in
  println ("Number of sensors: " +:+ py_int_str (Z.of_nat (length sensors)) +:+ newline);;
  println (ljust 5 "ID" +:+ " " +:+ ljust 15 "PROTOCOL" +:+ " " +:+ ljust 22 "MODEL" +:+ " "
           +:+ ljust 8 "TEMP" +:+ " " +:+ ljust 8 "HUMIDITY" +:+ " " +:+ "LAST UPDATED");;
  for_each_sensor sensors.
End ListSensors.

(** ** sensor_event_loop *)

Section EventLoop.
Context {L : Type} `{LoggerClass L}.
Variable strftime_localtime : Z -> string.

(** [process_pending_callbacks()]: each queued event calls the handler. *)
Fixpoint process_pending_callbacks (events : list td.sensor_event)
    (handler : SensorEventHandler.t L) : io (SensorEventHandler.t L) :=
  match events with
  | [] => ret handler
  | e :: rest =>
      let* handler :=
        SensorEventHandler.handle_sensor_event strftime_localtime handler
          (td.ev_protocol e) (td.ev_model e) (td.ev_id e) (td.ev_datatype e)
          (td.ev_value e) (td.ev_timestamp e) (td.ev_cid e) in
      process_pending_callbacks rest handler
  end.

(** The [while True] loop, one turn per batch of the dispatcher; the
    interrupt arrives in the sleep after the last batch. *)
Fixpoint poll (batches : list (list td.sensor_event))
    (handler : SensorEventHandler.t L) : io (SensorEventHandler.t L) :=
  match batches with
  | [] => ret handler
  | events :: rest =>
      let* handler := process_pending_callbacks events handler in
      let* handler := SensorEventHandler.handle_loop handler in
      poll rest handler
  end.

Definition sensor_event_loop (core : td.TelldusCore)
    (sensor_event_handler : SensorEventHandler.t L) : io (SensorEventHandler.t L) :=
  let* handler := poll (td.pending core) sensor_event_handler in
  SensorEventHandler.handle_exit handler.
End EventLoop.

(** ** The main program *)

(** The two classes [logger] can be bound to, and their objects. *)
Inductive logger_class := LoggerCls | CSVLoggerCls.

Inductive logger_object :=
  | LoggerObject (l : Logger.t)
  | CSVLoggerObject (l : CSVLogger.t).

Definition new (cls : logger_class) (logfile : pyval) (force_create : bool) : logger_object :=
  match cls with
  | LoggerCls => LoggerObject (Logger.__init__ logfile force_create)
  | CSVLoggerCls => CSVLoggerObject (CSVLogger.__init__ logfile force_create)
  end.

#[export] Instance logger_object_LoggerClass : LoggerClass logger_object := {
  __enter__ self :=
    match self with
    | LoggerObject l => let* l := Logger.__enter__ l in ret (LoggerObject l)
    | CSVLoggerObject l => let* l := CSVLogger.__enter__ l in ret (CSVLoggerObject l)
    end;
  __exit__ self :=
    match self with
    | LoggerObject l => let* l := Logger.__exit__ l in ret (LoggerObject l)
    | CSVLoggerObject l => let* l := CSVLogger.__exit__ l in ret (CSVLoggerObject l)
    end;
  log_sensor_data self protocol model id_ datatype value timestamp cid :=
    match self with
    | LoggerObject l =>
        let* l := Logger.log_sensor_data l protocol model id_ datatype value timestamp cid in
        ret (LoggerObject l)
    | CSVLoggerObject l =>
        let* l := CSVLogger.log_sensor_data l protocol model id_ datatype value timestamp cid in
        ret (CSVLoggerObject l)
    end
}.

(** [with manager as l: body l]: [__exit__] runs when the body returns and
    when it raises, not when [__enter__] raises; it returns [None], so an
    exception of the body goes on. *)
Definition with_ {L} `{LoggerClass L} {A} (manager : L) (body : L -> io A) : io A :=
  let* l := __enter__ manager in
  fun w =>
    match body l w with
    | (w', Return a) => (__exit__ l;; ret a) w'
    | (w', Raise e) => (__exit__ l;; raise e) w'
    end.

(** What [parser.parse_args()] returns.  [--logfile] and [--logtype] are
    declared with [nargs=1]: when given, their value is a list of one string;
    [logtype] is the string ['CSV'] by default and [logfile] is [None]. *)
Module argparse.
Record Namespace := MakeNamespace {
  heartbeat : bool;
  logfile : pyval;
  logtype : pyval;
  overwrite : bool;
  sensors : option (list Z);
  silent : bool;
  verbose : bool;
  list : bool
}.

End argparse.

Section Main.
Variable strftime_localtime : Z -> string.

(** Lines 227 to 235: the class bound to [logger], or [None] when no
    branch assigns it. *)
Definition select_logger (logfile logtype : pyval) : io (option logger_class) :=
  if py_truthy logfile then
    if py_eq logtype (PStr "CSV") then ret (Some CSVLoggerCls)
    else if py_eq logtype (PStr "SQLite") then
      println "SQLite support not yet implemented, sorry.";;
      exit 1
    else ret None
  else ret (Some LoggerCls).

Definition main (args : argparse.Namespace) (core : td.TelldusCore) : io unit :=
  if argparse.list args then
    list_sensors strftime_localtime core;;
    exit 0
  else
    let sensors := argparse.sensors args in
    let logfile := if py_truthy (argparse.logfile args) then argparse.logfile args else PNone in
    let logtype := if py_truthy (argparse.logtype args) then argparse.logtype args else PStr "CSV" in
    let silent := argparse.silent args in
    let heartbeat := if argparse.heartbeat args then Some Heartbeat.__init__ else None in
    let overwrite := argparse.overwrite args in
    let verbose := argparse.verbose args in
    let* logger := select_logger logfile logtype in
    match logger with
    | None => raise (NameError "logger")
    | Some logger =>
        with_ (new logger logfile overwrite) (fun sensor_data_logger =>
          let sensor_event_handler :=
            SensorEventHandler.__init__ sensor_data_logger heartbeat sensors silent verbose in
          sensor_event_loop strftime_localtime core sensor_event_handler;;
          ret tt)
    end.
End Main.

(** ** A sample environment *)

Definition two_digits (n : Z) : string :=
  if n <? 10 then "0" +:+ py_int_str n else py_int_str n.

(** [strftime("%F %T", localtime(t))] on a machine whose time zone is UTC. *)
Definition utc_strftime (t : Z) : string :=
  let days := t / 86400 in
  let secs := t mod 86400 in
  let z := days + 719468 in
  let era := z / 146097 in
  let doe := z - era * 146097 in
  let yoe := (doe - doe / 1460 + doe / 36524 - doe / 146096) / 365 in
  let doy := doe - (365 * yoe + yoe / 4 - yoe / 100) in
  let mp := (5 * doy + 2) / 153 in
  let d := doy - (153 * mp + 2) / 5 + 1 in
  let m := if mp <? 10 then mp + 3 else mp - 9 in
  let y := yoe + era * 400 + (if m <=? 2 then 1 else 0) in
  py_int_str y +:+ "-" +:+ two_digits m +:+ "-" +:+ two_digits d +:+ " "
    +:+ two_digits (secs / 3600) +:+ ":" +:+ two_digits (secs mod 3600 / 60) +:+ ":"
    +:+ two_digits (secs mod 60).

Definition empty_world : world := {| stdout := []; files := ∅ |}.

(** ** Specification vocabulary *)

(** [m] run from [w] appends the events [tr] to standard output, leaves the
    files as they are and returns [a]. *)
Definition prints {A} (m : io A) (w : world) (tr : list event) (a : A) : Prop :=
  m w = ({| stdout := stdout w ++ tr; files := files w |}, Return a).

(** The glyph of the [k]-th call of [print_output], counted from 0. *)
Definition cycle_glyph (k : nat) : string :=
  match (k mod 4)%nat with
  | 0%nat => "-"
  | 1%nat => "\"
  | 2%nat => "|"
  | _ => "/"
  end.

(** The heartbeat after [k] glyphs. *)
Definition beat (k : nat) (flush_output : bool) : Heartbeat.t :=
  {| Heartbeat.current_char := Z.of_nat (k mod 4); Heartbeat.flush_output := flush_output |}.

(** What [n] calls of [print_output] print, from the heartbeat [beat k f]. *)
Fixpoint beats (k : nat) (flush_output : bool) (n : nat) : list event :=
  match n with
  | O => []
  | S n' =>
      (if flush_output then [Printed backspace ""] else [])
        ++ [Printed (cycle_glyph k) ""; Flush] ++ beats (S k) true n'
  end.

(** The logger is open on [f], whose file holds [rows]: the state in which
    [__enter__] leaves it and in which the handler uses it. *)
Definition opened (self : CSVLogger.t) (w : world) (f : file) (rows : list row) : Prop :=
  CSVLogger.csvwriter self = Some f /\ closed f = false /\ file_rows w (name f) = Some rows.

(** The world in which row [r] follows [rows] in the file at [path]. *)
Definition append_row (path : string) (rows : list row) (r : row) (w : world) : world :=
  {| stdout := stdout w; files := <[path := RegularFile (rows ++ [r])]> (files w) |}.

(** [self] with the allowlist [s]. *)
Definition with_sensors {L} (s : option (list Z)) (self : SensorEventHandler.t L) :
    SensorEventHandler.t L :=
  {| SensorEventHandler.logger := SensorEventHandler.logger self;
     SensorEventHandler.heartbeat := SensorEventHandler.heartbeat self;
     SensorEventHandler.sensors := s;
     SensorEventHandler.silent := SensorEventHandler.silent self;
     SensorEventHandler.verbose := SensorEventHandler.verbose self |}.

(** ** Sample objects *)

Definition out_csv : file := {| name := "out.csv"; closed := false |}.

(** A logger that [__enter__] opened on [out.csv]. *)
Definition open_logger : CSVLogger.t :=
  {| CSVLogger.logfile := PStr "out.csv"; CSVLogger.force_create := false;
     CSVLogger.csvfile := Some out_csv; CSVLogger.csvwriter := Some out_csv |}.

(** The world in which [out.csv] holds the header row. *)
Definition logging_world : world :=
  {| stdout := []; files := {[ "out.csv" := RegularFile [CSVLogger.HEADER] ]} |}.

(** The world in which [out.csv] cannot be opened for writing. *)
Definition denied_world : world :=
  {| stdout := [];
     files := {[ "out.csv" := Unopenable true "[Errno 13] Permission denied: 'out.csv'" ]} |}.

(** A sensor that has a temperature of 21.5 read at time 200 and a humidity
    of 40 read at time 100. *)
Definition both_values : td.Sensor :=
  {| td.id := 7; td.protocol := "oregon"; td.model := "1A2D";
     td.has_value := fun datatype => (datatype =? 1) || (datatype =? 2);
     td.value_of := fun datatype =>
       if datatype =? 1 then Return (td.MakeValue "21.5" 200)
       else if datatype =? 2 then Return (td.MakeValue "40" 100)
       else Raise TelldusError |}.

(** The namespace of the command line [--logfile out.csv --logtype SQLite]. *)
Definition sqlite_args : argparse.Namespace :=
  {| argparse.heartbeat := false; argparse.logfile := PList ["out.csv"];
     argparse.logtype := PList ["SQLite"]; argparse.overwrite := false;
     argparse.sensors := None; argparse.silent := false; argparse.verbose := false;
     argparse.list := false |}.

(** ** Vocabulary for batches of readings *)

(** The row [CSVLogger.log_sensor_data] writes for the arguments of a sensor
    event: none for a datatype other than temperature and humidity. *)
Definition row_of_event (e : td.sensor_event) : option row :=
  if td.ev_datatype e =? const.TELLSTICK_TEMPERATURE then
    Some [CInt (td.ev_timestamp e); CInt (td.ev_id e); CStr (td.ev_value e); CStr ""]
  else if td.ev_datatype e =? const.TELLSTICK_HUMIDITY then
    Some [CInt (td.ev_timestamp e); CInt (td.ev_id e); CStr ""; CStr (td.ev_value e)]
  else None.

(** The rows a batch of events adds to the logfile under the allowlist
    [sensors]. *)
Definition logged_rows (sensors : option (list Z)) (events : list td.sensor_event) : list row :=
  omap row_of_event
    (filter (fun e => SensorEventHandler.accepts sensors (td.ev_id e) = true) events).

(** The [SensorData] object the handler builds for an event. *)
Definition sensor_data_of (e : td.sensor_event) : SensorData.t :=
  SensorData.Make (td.ev_protocol e) (td.ev_model e) (td.ev_id e) (td.ev_datatype e)
    (td.ev_value e) (td.ev_timestamp e) (td.ev_cid e).

(** [self] with the heartbeat [hb]. *)
Definition with_heartbeat {L} (hb : option Heartbeat.t) (self : SensorEventHandler.t L) :
    SensorEventHandler.t L :=
  {| SensorEventHandler.logger := SensorEventHandler.logger self;
     SensorEventHandler.heartbeat := hb;
     SensorEventHandler.sensors := SensorEventHandler.sensors self;
     SensorEventHandler.silent := SensorEventHandler.silent self;
     SensorEventHandler.verbose := SensorEventHandler.verbose self |}.

(** The heartbeat after a reading was printed: its erase flag is unset. *)
Definition after_reading (hb : option Heartbeat.t) : option Heartbeat.t :=
  match hb with
  | Some b =>
      Some {| Heartbeat.current_char := Heartbeat.current_char b;
              Heartbeat.flush_output := false |}
  | None => None
  end.

(** What printing the line of a reading sends to standard output: the
    backspace over the glyph on screen, if there is one, and the line. *)
Definition reading_trace (hb : option Heartbeat.t) (line : string) : list event :=
  match hb with
  | Some b => if Heartbeat.flush_output b then [Printed backspace ""] else []
  | None => []
  end ++ [Printed line newline].

(** The logger as [__enter__] leaves it on [path]. *)
Definition entered (self : CSVLogger.t) (path : string) : CSVLogger.t :=
  {| CSVLogger.logfile := PStr path; CSVLogger.force_create := CSVLogger.force_create self;
     CSVLogger.csvfile := Some {| name := path; closed := false |};
     CSVLogger.csvwriter := Some {| name := path; closed := false |} |}.

(** The world in which the file at [path] holds [rows]. *)
Definition set_rows (path : string) (rows : list row) (w : world) : world :=
  {| stdout := stdout w; files := <[path := RegularFile rows]> (files w) |}.

(** [self'] has the logger, the allowlist and the flags of [self]. *)
Definition same_config {L} (self self' : SensorEventHandler.t L) : Prop :=
  SensorEventHandler.logger self' = SensorEventHandler.logger self
  /\ SensorEventHandler.sensors self' = SensorEventHandler.sensors self
  /\ SensorEventHandler.silent self' = SensorEventHandler.silent self
  /\ SensorEventHandler.verbose self' = SensorEventHandler.verbose self.

(** ** Vocabulary for sequences of heartbeat calls *)

(** The methods of [Heartbeat] that its users call. *)
Inductive heartbeat_call :=
  | CallErase
  | CallDontFlush
  | CallCleanUp
  | CallPrintOutput.

Definition call (c : heartbeat_call) (self : Heartbeat.t) : io Heartbeat.t :=
  match c with
  | CallErase => Heartbeat.erase self
  | CallDontFlush => Heartbeat.dont_flush self
  | CallCleanUp => Heartbeat.clean_up self
  | CallPrintOutput => Heartbeat.print_output self
  end.

(** The calls [cs] one after the other. *)
Fixpoint calls (cs : list heartbeat_call) (self : Heartbeat.t) : io Heartbeat.t :=
  match cs with
  | [] => ret self
  | c :: cs' => let* self := call c self in calls cs' self
  end.

(** How many of the calls are [print_output]. *)
Fixpoint print_outputs (cs : list heartbeat_call) : nat :=
  match cs with
  | [] => 0
  | CallPrintOutput :: cs' => S (print_outputs cs')
  | _ :: cs' => print_outputs cs'
  end.

(** ** Vocabulary for runs without a logfile *)





(** ** More sample sensors *)

(** A sensor for which the SDK has no value. *)
Definition no_values : td.Sensor :=
  {| td.id := 9; td.protocol := "mandolyn"; td.model := "temperaturehumidity";
     td.has_value := fun _ => false;
     td.value_of := fun _ => Raise TelldusError |}.

(** A sensor that has a temperature of -4.5 only. *)
Definition temperature_only : td.Sensor :=
  {| td.id := 3; td.protocol := "fineoffset"; td.model := "temperature";
     td.has_value := fun datatype => datatype =? 1;
     td.value_of := fun datatype =>
       if datatype =? 1 then Return (td.MakeValue "-4.5" 1700000000)
       else Raise TelldusError |}.

(** ** Vocabulary for the console *)



(** * Properties *)

(** ** The monad *)

Lemma world_eta (w : world) : {| stdout := stdout w; files := files w |} = w.
Proof. by destruct w. Qed.

Lemma prints_ret {A} (a : A) w : prints (ret a) w [] a.
Proof. unfold prints, ret. by rewrite app_nil_r, world_eta. Qed.

Lemma prints_print text end_ w : prints (print text end_) w [Printed text end_] tt.
Proof. done. Qed.

Lemma prints_flush w : prints flush w [Flush] tt.
Proof. done. Qed.

Lemma prints_bind {A B} (m : io A) (k : A -> io B) w tr1 tr2 a b :
  prints m w tr1 a ->
  prints (k a) {| stdout := stdout w ++ tr1; files := files w |} tr2 b ->
  prints (let* x := m in k x) w (tr1 ++ tr2) b.
Proof.
  unfold prints, bind. intros -> ->. simpl. by rewrite app_assoc.
Qed.

Lemma prints_emitted {A} (m : io A) w tr a : prints m w tr a -> emitted m w = tr.
Proof. unfold prints, emitted. intros ->. simpl. apply drop_app_length. Qed.

Lemma prints_outcome {A} (m : io A) w tr a : prints m w tr a -> snd (m w) = Return a.
Proof. unfold prints. by intros ->. Qed.

(** ** Heartbeat *)

Lemma erase_prints (self : Heartbeat.t) w :
  prints (Heartbeat.erase self) w
    (if Heartbeat.flush_output self then [Printed backspace ""] else [])
    {| Heartbeat.current_char := Heartbeat.current_char self; Heartbeat.flush_output := true |}.
Proof.
  unfold Heartbeat.erase. destruct self as [c [|]]; simpl.
  - apply (prints_bind _ _ _ [_] [] tt); [apply prints_print | apply prints_ret].
  - apply prints_ret.
Qed.

Lemma mod4_cases (k : nat) :
  ((k mod 4 = 0 /\ S k mod 4 = 1) \/ (k mod 4 = 1 /\ S k mod 4 = 2) \/
   (k mod 4 = 2 /\ S k mod 4 = 3) \/ (k mod 4 = 3 /\ S k mod 4 = 0))%nat.
Proof.
  pose proof (Nat.div_mod_eq k 4) as E.
  pose proof (Nat.mod_upper_bound k 4 ltac:(lia)) as B.
  remember (k mod 4)%nat as r eqn:Hr. remember (k / 4)%nat as q eqn:Hq.
  assert (r = 0 \/ r = 1 \/ r = 2 \/ r = 3)%nat as [-> | [-> | [-> | ->]]] by lia.
  - left. split; [done|]. symmetry. apply (Nat.mod_unique _ _ q); lia.
  - right; left. split; [done|]. symmetry. apply (Nat.mod_unique _ _ q); lia.
  - right; right; left. split; [done|]. symmetry. apply (Nat.mod_unique _ _ q); lia.
  - right; right; right. split; [done|]. symmetry. apply (Nat.mod_unique _ _ (S q)); lia.
Qed.

Lemma print_output_prints k f w :
  prints (Heartbeat.print_output (beat k f)) w
    ((if f then [Printed backspace ""] else []) ++ [Printed (cycle_glyph k) ""; Flush])
    (beat (S k) true).
Proof.
  unfold Heartbeat.print_output, Heartbeat.__print_next.
  eapply prints_bind; [apply erase_prints |].
  unfold beat, cycle_glyph.
  destruct (mod4_cases k) as [[-> ->] | [[-> ->] | [[-> ->] | [-> ->]]]].
  all: destruct f; unfold prints, bind, Heartbeat.__get_next_char, py_getitem, ret, print, flush, emit;
    simpl; by rewrite <- ?app_assoc.
Qed.

Lemma beats_S k f n :
  beats k f (S n) =
  (((if f then [Printed backspace ""] else []) ++ [Printed (cycle_glyph k) ""; Flush])
     ++ beats (S k) true n)%list.
Proof. simpl. by rewrite <- app_assoc. Qed.

Lemma print_outputs_prints n : forall k f w,
  prints (for_range n Heartbeat.print_output (beat k f)) w (beats k f n) (beat (n + k) (negb (Nat.eqb n 0) || f)).
Proof.
  induction n as [|n IH]; intros k f w.
  - simpl. apply prints_ret.
  - simpl for_range. rewrite beats_S.
    eapply prints_bind; [apply print_output_prints |].
    replace (S n + k)%nat with (n + S k)%nat by lia.
    specialize (IH (S k) true {| stdout := stdout w ++ (if f then [Printed backspace ""] else []) ++ [Printed (cycle_glyph k) ""; Flush]; files := files w |}).
    simpl negb. rewrite orb_true_r in IH. exact IH.
Qed.

Lemma init_is_beat : Heartbeat.__init__ = beat 0 false.
Proof. reflexivity. Qed.

(** The glyph of call [k] is entry [k mod 4] of [HEARTBEAT_CHARS]. *)
Lemma cycle_glyph_lookup k : Heartbeat.HEARTBEAT_CHARS !! (k mod 4)%nat = Some (cycle_glyph k).
Proof.
  unfold cycle_glyph.
  destruct (mod4_cases k) as [[-> _] | [[-> _] | [[-> _] | [-> _]]]]; reflexivity.
Qed.

Lemma glyph_of_cycle_glyph k : Heartbeat.glyph_of (Printed (cycle_glyph k) "") = Some (cycle_glyph k).
Proof.
  unfold cycle_glyph.
  destruct (mod4_cases k) as [[-> _] | [[-> _] | [[-> _] | [-> _]]]]; reflexivity.
Qed.

Lemma is_erase_cycle_glyph k : Heartbeat.is_erase (Printed (cycle_glyph k) "") = false.
Proof.
  unfold cycle_glyph.
  destruct (mod4_cases k) as [[-> _] | [[-> _] | [[-> _] | [-> _]]]]; reflexivity.
Qed.

Lemma glyphs_glyph k : Heartbeat.glyphs [Printed (cycle_glyph k) ""; Flush] = [cycle_glyph k].
Proof.
  unfold cycle_glyph.
  destruct (mod4_cases k) as [[-> _] | [[-> _] | [[-> _] | [-> _]]]]; reflexivity.
Qed.

Lemma glyphs_app tr1 tr2 :
  Heartbeat.glyphs (tr1 ++ tr2) = Heartbeat.glyphs tr1 ++ Heartbeat.glyphs tr2.
Proof. apply omap_app. Qed.

Lemma glyphs_beats n : forall k f, Heartbeat.glyphs (beats k f n) = map cycle_glyph (seq k n).
Proof.
  induction n as [|n IH]; intros k f; [done |].
  rewrite beats_S, !glyphs_app, glyphs_glyph, IH.
  by destruct f.
Qed.

Lemma erases_app tr1 tr2 :
  Heartbeat.erases (tr1 ++ tr2) = (Heartbeat.erases tr1 + Heartbeat.erases tr2)%nat.
Proof. unfold Heartbeat.erases. by rewrite filter_app, length_app. Qed.

Lemma erases_glyph k : Heartbeat.erases [Printed (cycle_glyph k) ""; Flush] = 0%nat.
Proof.
  unfold Heartbeat.erases. rewrite filter_cons, is_erase_cycle_glyph.
  by rewrite decide_False, filter_cons, decide_False.
Qed.

Lemma erases_beats n : forall k f,
  Heartbeat.erases (beats k f n) = (n - (if f then 0 else 1))%nat.
Proof.
  induction n as [|n IH]; intros k f; [by destruct f |].
  rewrite beats_S, !erases_app, erases_glyph, IH.
  destruct f; simpl; change (Heartbeat.erases [Printed backspace ""]) with 1%nat; lia.
Qed.

(** C5: [N] calls of [print_output] on a fresh heartbeat return normally,
    print exactly [N] glyphs, which are ['-'], ['\'], ['|'], ['/'] in that
    order and again from ['-'] after every fourth, and exactly [N - 1]
    backspaces; the first call prints no backspace. *)
Theorem print_output_n_times (N : nat) (w : world) :
  (1 <= N)%nat ->
  let calls := for_range N Heartbeat.print_output Heartbeat.__init__ in
  snd (calls w) = Return (beat N true)
  /\ Heartbeat.glyphs (emitted calls w) = map cycle_glyph (seq 0 N)
  /\ length (Heartbeat.glyphs (emitted calls w)) = N
  /\ Heartbeat.erases (emitted calls w) = (N - 1)%nat
  /\ Heartbeat.erases (emitted (Heartbeat.print_output Heartbeat.__init__) w) = 0%nat.
Proof.
  intros HN calls.
  pose proof (print_outputs_prints N 0 false w) as Hrun.
  rewrite <- init_is_beat in Hrun. fold calls in Hrun.
  rewrite (prints_emitted _ _ _ _ Hrun), (prints_outcome _ _ _ _ Hrun).
  rewrite glyphs_beats, erases_beats, length_map, length_seq, Nat.add_0_r.
  destruct N as [|N]; [lia |]. simpl negb. simpl orb.
  repeat split.
  pose proof (print_output_prints 0 false w) as Hone.
  rewrite <- init_is_beat in Hone.
  by rewrite (prints_emitted _ _ _ _ Hone).
Qed.

Lemma print_output_n_times_witness :
  let calls := for_range 5 Heartbeat.print_output Heartbeat.__init__ in
  snd (calls empty_world) = Return (beat 5 true)
  /\ Heartbeat.glyphs (emitted calls empty_world) = ["-"; "\"; "|"; "/"; "-"]
  /\ length (Heartbeat.glyphs (emitted calls empty_world)) = 5%nat
  /\ Heartbeat.erases (emitted calls empty_world) = 4%nat
  /\ Heartbeat.erases (emitted (Heartbeat.print_output Heartbeat.__init__) empty_world) = 0%nat.
Proof. apply (print_output_n_times 5 empty_world). lia. Defined.

(** C4, as the code has it: [clean_up] calls [erase] three times and prints
    no glyph.  It prints three backspaces when the erase flag is set and two
    when it is unset, where the first call only sets the flag; the glyph
    index is kept and the flag is set afterwards. *)
Theorem clean_up_erases (self : Heartbeat.t) (w : world) :
  prints (Heartbeat.clean_up self) w
    (replicate (if Heartbeat.flush_output self then 3 else 2) (Printed backspace ""))
    {| Heartbeat.current_char := Heartbeat.current_char self; Heartbeat.flush_output := true |}
  /\ Heartbeat.erases (emitted (Heartbeat.clean_up self) w)
     = (if Heartbeat.flush_output self then 3 else 2)%nat
  /\ Heartbeat.glyphs (emitted (Heartbeat.clean_up self) w) = [].
Proof.
  assert (prints (Heartbeat.clean_up self) w
    (replicate (if Heartbeat.flush_output self then 3 else 2) (Printed backspace ""))
    {| Heartbeat.current_char := Heartbeat.current_char self; Heartbeat.flush_output := true |}) as Hrun.
  { destruct self as [c [|]]; unfold prints, Heartbeat.clean_up, Heartbeat.erase, for_range,
      bind, ret, print, emit; simpl; by rewrite <- ?app_assoc, ?world_eta. }
  split; [exact Hrun |].
  rewrite (prints_emitted _ _ _ _ Hrun). by destruct (Heartbeat.flush_output self).
Qed.

(** C4 as stated fails on a fresh heartbeat, whose erase flag is unset:
    [clean_up] prints two backspaces, not three. *)
Lemma clean_up_fresh_two_erases :
  Heartbeat.erases (emitted (Heartbeat.clean_up Heartbeat.__init__) empty_world) = 2%nat
  /\ Heartbeat.erases (emitted (Heartbeat.clean_up Heartbeat.__init__) empty_world) <> 3%nat.
Proof. split; [reflexivity | discriminate]. Qed.

(** ** CSVLogger *)

Lemma file_rows_append_row path rows r w :
  file_rows (append_row path rows r w) path = Some (rows ++ [r]).
Proof. unfold file_rows, append_row. simpl. by rewrite lookup_insert_eq. Qed.

Lemma file_rows_append_row_ne path path' rows r w :
  path <> path' -> file_rows (append_row path rows r w) path' = file_rows w path'.
Proof. intros Hne. unfold file_rows, append_row. simpl. by rewrite lookup_insert_ne. Qed.

Lemma writerow_opened self w f rows r :
  opened self w f rows ->
  writerow f r w = (append_row (name f) rows r w, Return tt).
Proof.
  intros (_ & Hopen & Hrows). unfold writerow. rewrite Hopen.
  unfold file_rows in Hrows.
  destruct (files w !! name f) as [[rows'|]|]; try discriminate.
  by injection Hrows as ->.
Qed.

(** A successful [__enter__] leaves the logger opened. *)
Lemma enter_opened self path w w' self' :
  CSVLogger.logfile self = PStr path ->
  CSVLogger.__enter__ self w = (w', Return self') ->
  exists rows, opened self' w' {| name := path; closed := false |} rows.
Proof.
  intros Hpath. unfold CSVLogger.__enter__, CSVLogger.__open_log_file.
  rewrite Hpath. unfold bind, try_except_IOError, os_path_exists, open_, writerow, ret, opened, file_rows.
  destruct (files w !! path) as [[rows | visible msg] |] eqn:Hfile; simpl.
  - destruct (CSVLogger.force_create self); simpl; rewrite ?lookup_insert_eq.
    + intros [= <- <-]. simpl. rewrite lookup_insert_eq. eauto.
    + intros [= <- <-]. simpl. rewrite lookup_insert_eq. eauto.
  - unfold println, print, exit, raise. simpl. discriminate.
  - rewrite lookup_insert_eq. intros [= <- <-]. simpl. rewrite lookup_insert_eq. eauto.
Qed.

(** C1: on an open logger, a temperature reading appends exactly one row,
    with the value in the temperature column and the empty string in the
    humidity column; a humidity reading appends exactly one row, with the
    value in the humidity column and the empty string in the temperature
    column; a reading of any other datatype returns normally and leaves the
    files and the output as they were. *)
Theorem csv_log_sensor_data_row (self : CSVLogger.t) (w : world)
    (protocol model : string) (id_ datatype : Z) (value : string) (timestamp cid : Z) :
  let call := CSVLogger.log_sensor_data self protocol model id_ datatype value timestamp cid in
  (datatype = 1 -> forall f rows, opened self w f rows ->
     let r := [CInt timestamp; CInt id_; CStr value; CStr ""] in
     call w = (append_row (name f) rows r w, Return self)
     /\ file_rows (fst (call w)) (name f) = Some (rows ++ [r]))
  /\ (datatype = 2 -> forall f rows, opened self w f rows ->
     let r := [CInt timestamp; CInt id_; CStr ""; CStr value] in
     call w = (append_row (name f) rows r w, Return self)
     /\ file_rows (fst (call w)) (name f) = Some (rows ++ [r]))
  /\ (datatype <> 1 -> datatype <> 2 -> call w = (w, Return self)).
Proof.
  intros call. subst call. unfold CSVLogger.log_sensor_data.
  split; [| split].
  - intros -> f rows Hopen. simpl.
    pose proof Hopen as (Hw & _). rewrite Hw. unfold bind.
    rewrite (writerow_opened _ _ _ _ _ Hopen). simpl.
    split; [done | apply file_rows_append_row].
  - intros -> f rows Hopen. simpl.
    pose proof Hopen as (Hw & _). rewrite Hw. unfold bind.
    rewrite (writerow_opened _ _ _ _ _ Hopen). simpl.
    split; [done | apply file_rows_append_row].
  - intros Hne1 Hne2.
    unfold const.TELLSTICK_TEMPERATURE, const.TELLSTICK_HUMIDITY.
    destruct (Z.eqb_spec datatype 1); [done |].
    destruct (Z.eqb_spec datatype 2); done.
Qed.

Lemma csv_log_sensor_data_row_witness :
  CSVLogger.log_sensor_data open_logger "oregon" "temp1" 5 1 "21.5" 1700000000 0 logging_world
  = (append_row "out.csv" [CSVLogger.HEADER]
       [CInt 1700000000; CInt 5; CStr "21.5"; CStr ""] logging_world,
     Return open_logger)
  /\ CSVLogger.log_sensor_data open_logger "oregon" "temp1" 5 2 "40" 1700000000 0 logging_world
  = (append_row "out.csv" [CSVLogger.HEADER]
       [CInt 1700000000; CInt 5; CStr ""; CStr "40"] logging_world,
     Return open_logger).
Proof.
  assert (opened open_logger logging_world out_csv [CSVLogger.HEADER]) as Hopen
    by (repeat split; reflexivity).
  split.
  - destruct (csv_log_sensor_data_row open_logger logging_world "oregon" "temp1" 5 1 "21.5"
                1700000000 0) as (Htemperature & _ & _).
    exact (proj1 (Htemperature eq_refl out_csv [CSVLogger.HEADER] Hopen)).
  - destruct (csv_log_sensor_data_row open_logger logging_world "oregon" "temp1" 5 2 "40"
                1700000000 0) as (_ & Hhumidity & _).
    exact (proj1 (Hhumidity eq_refl out_csv [CSVLogger.HEADER] Hopen)).
Defined.

(** C8: when [open] raises [IOError] on the logfile, [__enter__] prints one
    line with the path and the text of the error and raises [SystemExit]
    with status 1; nothing is opened again, no file changes, the body of the
    [with] statement does not run and the exit status is not zero. *)
Theorem csv_open_failure_is_fatal (self : CSVLogger.t) (path strerror : string) (w w' : world) :
  CSVLogger.logfile self = PStr path ->
  open_ (PStr path) (if CSVLogger.force_create self then "w" else "a") w
    = (w', Raise (IOError strerror)) ->
  let report := Printed ("Could not open logfile " +:+ path +:+ ": " +:+ strerror) newline in
  CSVLogger.__enter__ self w = (emit report w, Raise (SystemExit 1))
  /\ (forall (A : Type) (body : logger_object -> io A),
        with_ (CSVLoggerObject self) body w = (emit report w, Raise (SystemExit 1)))
  /\ files (emit report w) = files w
  /\ exit_status (@Raise unit (SystemExit 1)) <> 0.
Proof.
  intros Hpath Hopen report.
  assert (CSVLogger.__enter__ self w = (emit report w, Raise (SystemExit 1))) as Henter.
  { unfold CSVLogger.__enter__, CSVLogger.__open_log_file.
    rewrite Hpath. unfold bind at 1. unfold os_path_exists.
    unfold try_except_IOError, bind at 1. rewrite Hopen.
    assert (w' = w) as ->.
    { unfold open_ in Hopen. destruct (files w !! path) as [[rows | visible msg] |];
        by injection Hopen. }
    reflexivity. }
  split; [exact Henter |]. split; [| split; [reflexivity | discriminate]].
  intros A body. unfold with_, bind at 1. simpl __enter__. unfold bind at 1.
  by rewrite Henter.
Qed.

Lemma csv_open_failure_is_fatal_witness :
  CSVLogger.__enter__ (CSVLogger.__init__ (PStr "out.csv") false) denied_world
  = ({| stdout := [Printed "Could not open logfile out.csv: [Errno 13] Permission denied: 'out.csv'"
                     newline];
        files := files denied_world |},
     Raise (SystemExit 1)).
Proof.
  apply (csv_open_failure_is_fatal (CSVLogger.__init__ (PStr "out.csv") false) "out.csv"
           "[Errno 13] Permission denied: 'out.csv'" denied_world denied_world);
    reflexivity.
Defined.

(** ** SensorEventHandler *)

Section Handler.
Context {L : Type} `{LoggerClass L}.
Variable strftime_localtime : Z -> string.

Local Abbreviation handle_sensor_event := (SensorEventHandler.handle_sensor_event strftime_localtime).
Local Abbreviation print_sensor_data := (SensorEventHandler.print_sensor_data strftime_localtime).

Lemma emitted_unchanged {A} (m : io A) w a : m w = (w, a) -> emitted m w = [].
Proof. unfold emitted. intros ->. simpl. by rewrite drop_all. Qed.

(** C2: with a non-empty allowlist that does not hold the sensor ID, the
    handler returns itself unchanged, whatever the logger is: the logger
    is not called and the reading is not printed.  The only output is the
    notice of verbose mode; with verbose off there is none. *)
Theorem reading_outside_allowlist (self : SensorEventHandler.t L) (allowlist : list Z)
    (protocol model : string) (id_ datatype : Z) (value : string) (timestamp cid : Z)
    (w : world) :
  SensorEventHandler.sensors self = Some allowlist ->
  allowlist <> [] ->
  id_ ∉ allowlist ->
  let call := handle_sensor_event self protocol model id_ datatype value timestamp cid in
  call w = (if SensorEventHandler.verbose self
            then emit (Printed ("Ignoring sensor with ID " +:+ py_int_str id_) newline) w
            else w,
            Return self)
  /\ (SensorEventHandler.verbose self = false -> emitted call w = []).
Proof.
  intros Hsensors Hne Hnotin call.
  assert (call w = (if SensorEventHandler.verbose self
            then emit (Printed ("Ignoring sensor with ID " +:+ py_int_str id_) newline) w
            else w, Return self)) as Hcall.
  { subst call. unfold SensorEventHandler.handle_sensor_event, SensorEventHandler.accepts.
    rewrite Hsensors, (bool_decide_eq_false_2 _ Hne), (bool_decide_eq_false_2 _ Hnotin).
    simpl. by destruct (SensorEventHandler.verbose self). }
  split; [exact Hcall |].
  intros Hquiet. rewrite Hquiet in Hcall. by apply emitted_unchanged in Hcall.
Qed.

(** C9: with the empty list as allowlist the handler takes the accepting
    branch for every sensor ID: it prints the reading as
    [print_sensor_data] does and then calls the logger, exactly as it does
    without an allowlist. *)
Theorem empty_allowlist_accepts (self : SensorEventHandler.t L)
    (protocol model : string) (id_ datatype : Z) (value : string) (timestamp cid : Z)
    (w : world) :
  SensorEventHandler.sensors self = Some [] ->
  let sensor_data := SensorData.Make protocol model id_ datatype value timestamp cid in
  handle_sensor_event self protocol model id_ datatype value timestamp cid w
  = (let* self := print_sensor_data self sensor_data in
     let* l := log_sensor_data (SensorEventHandler.logger self)
                 protocol model id_ datatype value timestamp cid in
     ret (SensorEventHandler.set_logger self l)) w
  /\ handle_sensor_event self protocol model id_ datatype value timestamp cid w
  = (let* handler := handle_sensor_event (with_sensors None self)
                       protocol model id_ datatype value timestamp cid in
     ret (with_sensors (Some []) handler)) w.
Proof.
  intros Hsensors sensor_data.
  unfold SensorEventHandler.handle_sensor_event, SensorEventHandler.accepts.
  rewrite Hsensors. simpl. split; [reflexivity |].
  destruct self as [l hb s silent verbose]. simpl in Hsensors. subst s.
  unfold SensorEventHandler.print_sensor_data, with_sensors, bind, ret. simpl.
  destruct silent; simpl.
  - by destruct (log_sensor_data l protocol model id_ datatype value timestamp cid w)
      as [w1 [l1 | e]].
  - destruct hb as [[c [|]] |]; simpl;
      by destruct (log_sensor_data l protocol model id_ datatype value timestamp cid _)
        as [w1 [l1 | e]].
Qed.

(** C10: in silent mode [print_sensor_data] returns the handler as it is
    and leaves the world as it is, so nothing is printed and the heartbeat
    keeps its glyph index and its erase flag; an accepted reading still
    goes to the logger, and only the logger of the handler changes. *)
Theorem silent_skips_printing (self : SensorEventHandler.t L) (sensor_data : SensorData.t)
    (protocol model : string) (id_ datatype : Z) (value : string) (timestamp cid : Z)
    (w : world) :
  SensorEventHandler.silent self = true ->
  SensorEventHandler.accepts (SensorEventHandler.sensors self) id_ = true ->
  print_sensor_data self sensor_data w = (w, Return self)
  /\ emitted (print_sensor_data self sensor_data) w = []
  /\ handle_sensor_event self protocol model id_ datatype value timestamp cid w
     = (let* l := log_sensor_data (SensorEventHandler.logger self)
                    protocol model id_ datatype value timestamp cid in
        ret (SensorEventHandler.set_logger self l)) w
  /\ (forall w' handler,
        handle_sensor_event self protocol model id_ datatype value timestamp cid w
          = (w', Return handler) ->
        SensorEventHandler.heartbeat handler = SensorEventHandler.heartbeat self).
Proof.
  intros Hsilent Haccepts.
  assert (forall sd, print_sensor_data self sd w = (w, Return self)) as Hprint.
  { intros sd. unfold SensorEventHandler.print_sensor_data. by rewrite Hsilent. }
  assert (handle_sensor_event self protocol model id_ datatype value timestamp cid w
     = (let* l := log_sensor_data (SensorEventHandler.logger self)
                    protocol model id_ datatype value timestamp cid in
        ret (SensorEventHandler.set_logger self l)) w) as Hhandle.
  { unfold SensorEventHandler.handle_sensor_event. rewrite Haccepts.
    unfold bind at 1. by rewrite Hprint. }
  split; [apply Hprint |]. split; [apply (emitted_unchanged _ _ _ (Hprint _)) |].
  split; [exact Hhandle |].
  intros w' handler. rewrite Hhandle. unfold bind, ret.
  destruct (log_sensor_data _ _ _ _ _ _ _ _ w) as [w1 [l1 | e]]; [| discriminate].
  by intros [= _ <-].
Qed.
End Handler.

Lemma reading_outside_allowlist_witness :
  let handler :=
    SensorEventHandler.__init__ (CSVLoggerObject open_logger) (Some Heartbeat.__init__)
      (Some [1; 2]) false false in
  SensorEventHandler.handle_sensor_event utc_strftime handler
    "oregon" "temp1" 3 1 "21.5" 1700000000 0 logging_world
  = (logging_world, Return handler).
Proof.
  intros handler.
  refine (proj1 (reading_outside_allowlist utc_strftime handler [1; 2]
                   "oregon" "temp1" 3 1 "21.5" 1700000000 0 logging_world eq_refl _ _)).
  - discriminate.
  - apply (bool_decide_unpack (3 ∉ [1; 2])). vm_compute. exact I.
Defined.

Lemma empty_allowlist_accepts_witness :
  let handler :=
    SensorEventHandler.__init__ (CSVLoggerObject open_logger) None (Some []) false false in
  SensorEventHandler.handle_sensor_event utc_strftime handler
    "oregon" "temp1" 5 1 "21.5" 1700000000 0 logging_world
  = ({| stdout := [Printed "2023-11-14 22:13:20 SENSOR 5 [oregon/temp1] temperature value: 21.5"
                     newline];
        files := {[ "out.csv" := RegularFile [CSVLogger.HEADER;
                      [CInt 1700000000; CInt 5; CStr "21.5"; CStr ""]] ]} |},
     Return handler).
Proof.
  intros handler.
  rewrite (proj1 (empty_allowlist_accepts utc_strftime handler
                    "oregon" "temp1" 5 1 "21.5" 1700000000 0 logging_world eq_refl)).
  vm_compute. reflexivity.
Defined.

Lemma silent_skips_printing_witness :
  let handler :=
    SensorEventHandler.__init__ (CSVLoggerObject open_logger) (Some (beat 2 true)) None
      true false in
  SensorEventHandler.handle_sensor_event utc_strftime handler
    "oregon" "temp1" 5 2 "40" 1700000000 0 logging_world
  = (append_row "out.csv" [CSVLogger.HEADER] [CInt 1700000000; CInt 5; CStr ""; CStr "40"]
       logging_world,
     Return handler).
Proof.
  intros handler.
  destruct (silent_skips_printing utc_strftime handler
              (SensorData.Make "oregon" "temp1" 5 2 "40" 1700000000 0)
              "oregon" "temp1" 5 2 "40" 1700000000 0 logging_world eq_refl eq_refl)
    as (_ & _ & Hhandle & _).
  rewrite Hhandle. vm_compute. reflexivity.
Defined.

(** ** list_sensors *)

(** C6, the code at a sensor with temperature 21.5 and humidity 40: the
    humidity column of its row holds 21.5, the temperature, since the
    humidity branch asks the sensor for its temperature value. *)
Theorem list_sensors_humidity_column (strftime_localtime : Z -> string) (w : world) :
  td.has_value both_values const.TELLSTICK_HUMIDITY = true
  /\ td.value_of both_values const.TELLSTICK_HUMIDITY = Return (td.MakeValue "40" 100)
  /\ sensor_columns both_values w = (w, Return ("21.5", "21.5", Some 200))
  /\ sensor_row strftime_localtime both_values w
     = (w, Return (Some (format_row 7 "oregon" "1A2D" "21.5" "21.5" (strftime_localtime 200)))).
Proof. repeat split. Qed.

(** C7, as the code has it: for a sensor with both values, whose temperature
    value is not empty and was read at a time other than 0, the row carries
    the time of the temperature value, whatever the time of the humidity
    value is. *)
Theorem list_sensors_timestamp (strftime_localtime : Z -> string) (sensor : td.Sensor)
    (temperature humidity : td.SensorValue) (w : world) :
  td.has_value sensor const.TELLSTICK_TEMPERATURE = true ->
  td.has_value sensor const.TELLSTICK_HUMIDITY = true ->
  td.value_of sensor const.TELLSTICK_TEMPERATURE = Return temperature ->
  td.value_of sensor const.TELLSTICK_HUMIDITY = Return humidity ->
  td.value temperature <> "" ->
  td.timestamp temperature <> 0 ->
  exists humidity_column,
    sensor_columns sensor w
    = (w, Return (td.value temperature, humidity_column, Some (td.timestamp temperature)))
    /\ sensor_row strftime_localtime sensor w
       = (w, Return (Some (format_row (td.id sensor) (td.protocol sensor) (td.model sensor)
                             (td.value temperature) humidity_column
                             (strftime_localtime (td.timestamp temperature))))).
Proof.
  intros Htemp Hhum Hvalue _ Hnonempty Hnonzero.
  exists (td.value temperature).
  assert (sensor_columns sensor w
    = (w, Return (td.value temperature, td.value temperature,
                  Some (td.timestamp temperature)))) as Hcolumns.
  { unfold const.TELLSTICK_TEMPERATURE, const.TELLSTICK_HUMIDITY in *.
    unfold sensor_columns, bind, td.sensor_value, ret,
      const.TELLSTICK_TEMPERATURE, const.TELLSTICK_HUMIDITY.
    simpl. rewrite Htemp, Hvalue. simpl. rewrite Hhum. simpl.
    by rewrite (proj2 (Z.eqb_neq _ _) Hnonzero). }
  split; [exact Hcolumns |].
  unfold sensor_row, bind at 1. rewrite Hcolumns.
  by rewrite (bool_decide_eq_false_2 _ Hnonempty).
Qed.

Lemma list_sensors_timestamp_witness :
  exists humidity_column,
    sensor_columns both_values empty_world
    = (empty_world, Return ("21.5", humidity_column, Some 200))
    /\ sensor_row utc_strftime both_values empty_world
       = (empty_world,
          Return (Some (format_row 7 "oregon" "1A2D" "21.5" humidity_column
                          "1970-01-01 00:03:20"))).
Proof.
  apply (list_sensors_timestamp utc_strftime both_values
           (td.MakeValue "21.5" 200) (td.MakeValue "40" 100) empty_world);
    try reflexivity; discriminate.
Defined.

(** C7 as stated fails at the sensor whose temperature was read at time 200
    and whose humidity was read at time 100: the row carries time 200, not
    the earlier time 100. *)
Lemma list_sensors_timestamp_not_earliest :
  snd (sensor_columns both_values empty_world) = Return ("21.5", "21.5", Some 200)
  /\ Some 200 <> Some (Z.min 200 100)
  /\ snd (sensor_row utc_strftime both_values empty_world)
     = Return (Some (format_row 7 "oregon" "1A2D" "21.5" "21.5" "1970-01-01 00:03:20"))
  /\ "1970-01-01 00:03:20" <> utc_strftime (Z.min 200 100).
Proof. repeat split; discriminate. Qed.

(** ** The main program *)

(** A [logtype] that is a list, as [--logtype] gives it, equals neither
    ['CSV'] nor ['SQLite']: with a logfile no branch binds [logger], and the
    message of the SQLite branch is not printed. *)
Lemma select_logger_list (logfile : pyval) (choice : list string) (w : world) :
  select_logger logfile (PList choice) w
  = (w, Return (if py_truthy logfile then None else Some LoggerCls)).
Proof. unfold select_logger. by destruct (py_truthy logfile). Qed.

(** C3, the code at the command line [--logfile out.csv --logtype SQLite]:
    the program prints nothing, not the message of the SQLite branch, and
    ends with [NameError] since [logger] is not bound; no file is made and
    the exit status is 1. *)
Theorem main_sqlite_name_error (strftime_localtime : Z -> string) (core : td.TelldusCore)
    (w : world) :
  main strftime_localtime sqlite_args core w = (w, Raise (NameError "logger"))
  /\ emitted (main strftime_localtime sqlite_args core) w = []
  /\ exit_status (snd (main strftime_localtime sqlite_args core w)) = 1.
Proof.
  assert (main strftime_localtime sqlite_args core w = (w, Raise (NameError "logger"))) as Hmain
    by reflexivity.
  split; [exact Hmain |]. split; [| by rewrite Hmain].
  unfold emitted. rewrite Hmain. simpl. by rewrite drop_all.
Qed.

(** * Further properties *)

(** ** Opening the logfile *)

Lemma enter_new_file (self : CSVLogger.t) (path : string) (w : world) :
  CSVLogger.logfile self = PStr path ->
  files w !! path = None
  \/ (CSVLogger.force_create self = true
      /\ exists rows, files w !! path = Some (RegularFile rows)) ->
  CSVLogger.__enter__ self w
  = (set_rows path [CSVLogger.HEADER] w, Return (entered self path)).
Proof.
  intros Hpath Hcase.
  unfold CSVLogger.__enter__, CSVLogger.__open_log_file, set_rows, entered.
  rewrite Hpath.
  unfold bind, try_except_IOError, os_path_exists, open_, writerow, ret.
  destruct Hcase as [Habsent | (Hforce & rows & Hfile)].
  - rewrite Habsent. simpl. rewrite lookup_insert_eq, insert_insert_eq.
    by destruct (CSVLogger.force_create self).
  - rewrite Hfile, Hforce. simpl. by rewrite lookup_insert_eq, insert_insert_eq.
Qed.

Lemma opened_set_rows (self : CSVLogger.t) (path : string) (rows : list row) (w : world) :
  opened (entered self path) (set_rows path rows w) {| name := path; closed := false |} rows.
Proof. repeat split. unfold file_rows, set_rows. simpl. by rewrite lookup_insert_eq. Qed.



Lemma enter_existing_file (self : CSVLogger.t) (path : string) (rows : list row) (w : world) :
  CSVLogger.logfile self = PStr path ->
  CSVLogger.force_create self = false ->
  files w !! path = Some (RegularFile rows) ->
  CSVLogger.__enter__ self w = (w, Return (entered self path)).
Proof.
  intros Hpath Hforce Hfile.
  unfold CSVLogger.__enter__, CSVLogger.__open_log_file, entered.
  rewrite Hpath, Hforce.
  unfold bind, try_except_IOError, os_path_exists, open_, ret.
  rewrite Hfile. simpl. by rewrite (insert_id _ _ _ Hfile), world_eta.
Qed.

(** X2: in append mode, [__enter__] on an existing file leaves the world as
    it is: the rows are kept, no second header is written, and the logger
    is opened on the file with the rows it had. *)
Theorem csv_enter_appends (self : CSVLogger.t) (path : string) (rows : list row) (w : world) :
  CSVLogger.logfile self = PStr path ->
  CSVLogger.force_create self = false ->
  files w !! path = Some (RegularFile rows) ->
  CSVLogger.__enter__ self w = (w, Return (entered self path))
  /\ opened (entered self path) w {| name := path; closed := false |} rows.
Proof.
  intros Hpath Hforce Hfile. split; [by apply (enter_existing_file _ _ rows) |].
  repeat split. unfold file_rows. simpl. by rewrite Hfile.
Qed.

Lemma csv_enter_appends_witness :
  CSVLogger.__enter__ (CSVLogger.__init__ (PStr "out.csv") false) logging_world
  = (logging_world, Return open_logger).
Proof.
  apply (csv_enter_appends (CSVLogger.__init__ (PStr "out.csv") false) "out.csv"
           [CSVLogger.HEADER] logging_world); reflexivity.
Defined.

(** ** Printing a reading *)

Section Printing.
Context {L : Type} `{LoggerClass L}.
Variable strftime_localtime : Z -> string.

Lemma with_heartbeat_same (self : SensorEventHandler.t L) :
  with_heartbeat (SensorEventHandler.heartbeat self) self = self.
Proof. by destruct self. Qed.

Lemma print_sensor_data_runs (self : SensorEventHandler.t L) (sensor_data : SensorData.t)
    (w : world) :
  SensorEventHandler.silent self = false ->
  prints (SensorEventHandler.print_sensor_data strftime_localtime self sensor_data) w
    (reading_trace (SensorEventHandler.heartbeat self)
       (SensorData.__str__ strftime_localtime sensor_data))
    (with_heartbeat (after_reading (SensorEventHandler.heartbeat self)) self).
Proof.
  intros Hsilent. destruct self as [l hb s silent verbose]. simpl in Hsilent. subst silent.
  unfold prints, SensorEventHandler.print_sensor_data, reading_trace, after_reading,
    with_heartbeat, Heartbeat.erase, Heartbeat.dont_flush, println, print, bind, ret, emit.
  destruct hb as [[c [|]] |]; simpl; by rewrite <- ?app_assoc.
Qed.

Lemma print_sensor_data_files (self : SensorEventHandler.t L) (sensor_data : SensorData.t)
    (w : world) :
  exists tr hb,
    SensorEventHandler.print_sensor_data strftime_localtime self sensor_data w
    = ({| stdout := stdout w ++ tr; files := files w |}, Return (with_heartbeat hb self))
    /\ (SensorEventHandler.silent self = true -> tr = [])
    /\ (SensorEventHandler.heartbeat self = None -> hb = None)
    /\ (hb = SensorEventHandler.heartbeat self \/ hb = after_reading (SensorEventHandler.heartbeat self)).
Proof.
  destruct (SensorEventHandler.silent self) eqn:Hsilent.
  - exists [], (SensorEventHandler.heartbeat self).
    unfold SensorEventHandler.print_sensor_data. rewrite Hsilent.
    unfold ret. rewrite app_nil_r, world_eta, with_heartbeat_same. auto.
  - eexists _, _. split; [apply (print_sensor_data_runs _ _ _ Hsilent) |].
    split; [done |]. split; [by intros -> | by right].
Qed.

(** X3: when the handler is not silent, [print_sensor_data] prints the line
    of the reading once, after one backspace exactly when a heartbeat glyph
    is on screen, and unsets the erase flag of the heartbeat, so that the
    next glyph does not erase the end of the line; the files, the logger and
    the glyph index are left as they are. *)
Theorem print_sensor_data_line (self : SensorEventHandler.t L) (sensor_data : SensorData.t)
    (w : world) :
  SensorEventHandler.silent self = false ->
  let call := SensorEventHandler.print_sensor_data strftime_localtime self sensor_data in
  let line := SensorData.__str__ strftime_localtime sensor_data in
  call w
  = ({| stdout := stdout w ++ reading_trace (SensorEventHandler.heartbeat self) line;
        files := files w |},
     Return (with_heartbeat (after_reading (SensorEventHandler.heartbeat self)) self))
  /\ Heartbeat.glyphs (emitted call w) = []
  /\ Heartbeat.erases (emitted call w)
     = match SensorEventHandler.heartbeat self with
       | Some b => if Heartbeat.flush_output b then 1%nat else 0%nat
       | None => 0%nat
       end.
Proof.
  intros Hsilent call line.
  pose proof (print_sensor_data_runs self sensor_data w Hsilent) as Hruns.
  fold call line in Hruns. split; [exact Hruns |].
  rewrite (prints_emitted _ _ _ _ Hruns). unfold reading_trace.
  assert (Heartbeat.erases [Printed line newline] = 0%nat) as Hline.
  { unfold Heartbeat.erases. rewrite filter_cons. simpl.
    rewrite decide_False; [done |]. by rewrite andb_false_r. }
  assert (Heartbeat.glyphs [Printed line newline] = []) as Hglyphs.
  { unfold Heartbeat.glyphs. simpl. by rewrite andb_false_r. }
  destruct (SensorEventHandler.heartbeat self) as [[c [|]] |];
    rewrite ?glyphs_app, ?erases_app, ?Hline, ?Hglyphs; split; reflexivity.
Qed.
End Printing.

Lemma print_sensor_data_line_witness :
  let handler :=
    SensorEventHandler.__init__ (Logger.__init__ PNone false) (Some (beat 1 true)) None
      false false in
  SensorEventHandler.print_sensor_data utc_strftime handler
    (SensorData.Make "oregon" "temp1" 5 1 "21.5" 1700000000 0) empty_world
  = ({| stdout :=
          [Printed backspace "";
           Printed "2023-11-14 22:13:20 SENSOR 5 [oregon/temp1] temperature value: 21.5"
             newline];
        files := ∅ |},
     Return (with_heartbeat (Some (beat 1 false)) handler)).
Proof.
  intros handler.
  apply (print_sensor_data_line utc_strftime handler
           (SensorData.Make "oregon" "temp1" 5 1 "21.5" 1700000000 0) empty_world).
  reflexivity.
Defined.

(** ** Logging batches of readings *)

Lemma logged_rows_cons sensors e events :
  logged_rows sensors (e :: events) = logged_rows sensors [e] ++ logged_rows sensors events.
Proof.
  unfold logged_rows. rewrite !filter_cons, filter_nil.
  destruct (decide (SensorEventHandler.accepts sensors (td.ev_id e) = true)); [| done].
  simpl. by destruct (row_of_event e).
Qed.

Lemma opened_stdout self w f rows tr :
  opened self w f rows -> opened self {| stdout := tr; files := files w |} f rows.
Proof. by intros (? & ? & ?). Qed.

Lemma opened_insert_id self w f rows :
  opened self w f rows -> <[name f := RegularFile rows]> (files w) = files w.
Proof.
  intros (_ & _ & Hrows). unfold file_rows in Hrows.
  destruct (files w !! name f) as [[rows' |] |] eqn:Hfile; try discriminate.
  injection Hrows as ->. by apply insert_id.
Qed.

Lemma csv_log_event (self : CSVLogger.t) (e : td.sensor_event) f rows w :
  opened self w f rows ->
  CSVLogger.log_sensor_data self (td.ev_protocol e) (td.ev_model e) (td.ev_id e)
    (td.ev_datatype e) (td.ev_value e) (td.ev_timestamp e) (td.ev_cid e) w
  = (set_rows (name f) (rows ++ option_list (row_of_event e)) w, Return self).
Proof.
  intros Hopen. pose proof Hopen as (Hw & _ & Hrows).
  unfold CSVLogger.log_sensor_data, row_of_event, set_rows.
  destruct (td.ev_datatype e =? const.TELLSTICK_TEMPERATURE).
  - rewrite Hw. unfold bind. by rewrite (writerow_opened _ _ _ _ _ Hopen).
  - destruct (td.ev_datatype e =? const.TELLSTICK_HUMIDITY).
    + rewrite Hw. unfold bind. by rewrite (writerow_opened _ _ _ _ _ Hopen).
    + simpl. unfold ret. by rewrite app_nil_r, (opened_insert_id _ _ _ _ Hopen), world_eta.
Qed.

Section CsvBatches.
Variable strftime_localtime : Z -> string.

Lemma csv_handle_event (handler : SensorEventHandler.t CSVLogger.t) (e : td.sensor_event)
    f rows w :
  opened (SensorEventHandler.logger handler) w f rows ->
  exists w' handler',
    SensorEventHandler.handle_sensor_event strftime_localtime handler
      (td.ev_protocol e) (td.ev_model e) (td.ev_id e) (td.ev_datatype e)
      (td.ev_value e) (td.ev_timestamp e) (td.ev_cid e) w = (w', Return handler')
    /\ files w'
       = <[name f := RegularFile (rows ++ logged_rows (SensorEventHandler.sensors handler) [e])]>
           (files w)
    /\ same_config handler handler'.
Proof.
  intros Hopen. unfold SensorEventHandler.handle_sensor_event, logged_rows.
  rewrite filter_cons, filter_nil.
  destruct (SensorEventHandler.accepts _ _) eqn:Haccepts.
  - rewrite decide_True by done.
    destruct (print_sensor_data_files strftime_localtime handler
                (SensorData.Make (td.ev_protocol e) (td.ev_model e) (td.ev_id e)
                   (td.ev_datatype e) (td.ev_value e) (td.ev_timestamp e) (td.ev_cid e)) w)
      as (tr & hb & Hprint & _).
    unfold bind at 1. rewrite Hprint. unfold bind at 1. simpl log_sensor_data.
    simpl SensorEventHandler.logger.
    rewrite (csv_log_event _ e f rows _ (opened_stdout _ _ _ _ _ Hopen)).
    eexists _, _. split; [reflexivity |]. split; [| done].
    simpl. by destruct (row_of_event e).
  - rewrite decide_False by (by intros [=]).
    assert (files w = <[name f := RegularFile (rows ++ omap row_of_event [])]> (files w)) as Hsame.
    { simpl. by rewrite app_nil_r, (opened_insert_id _ _ _ _ Hopen). }
    destruct (SensorEventHandler.verbose handler).
    + eexists _, _. split; [reflexivity |]. split; [exact Hsame | done].
    + eexists _, _. split; [reflexivity |]. split; [exact Hsame | done].
Qed.

Lemma process_pending_callbacks_csv (events : list td.sensor_event) :
  forall (handler : SensorEventHandler.t CSVLogger.t) (f : file) (rows : list row) (w : world),
  opened (SensorEventHandler.logger handler) w f rows ->
  exists w' handler',
    process_pending_callbacks strftime_localtime events handler w = (w', Return handler')
    /\ files w'
       = <[name f := RegularFile (rows ++ logged_rows (SensorEventHandler.sensors handler) events)]>
           (files w)
    /\ same_config handler handler'.
Proof.
  induction events as [| e events IH]; intros handler f rows w Hopen.
  - exists w, handler. simpl. rewrite app_nil_r.
    split; [done |]. split; [by rewrite (opened_insert_id _ _ _ _ Hopen) | done].
  - destruct (csv_handle_event handler e f rows w Hopen)
      as (w1 & handler1 & Hstep & Hfiles1 & Hlogger & Hsensors & Hsilent & Hverbose).
    assert (opened (SensorEventHandler.logger handler1) w1 f
              (rows ++ logged_rows (SensorEventHandler.sensors handler) [e])) as Hopen1.
    { rewrite Hlogger. destruct Hopen as (Hw & Hclosed & _).
      repeat split; [done | done |]. unfold file_rows. by rewrite Hfiles1, lookup_insert_eq. }
    destruct (IH handler1 f _ w1 Hopen1) as (w' & handler' & Hrest & Hfiles & Hconfig).
    exists w', handler'. simpl process_pending_callbacks. unfold bind at 1. rewrite Hstep.
    rewrite Hsensors in Hfiles.
    rewrite logged_rows_cons, app_assoc.
    split; [exact Hrest |]. split; [by rewrite Hfiles, Hfiles1, insert_insert_eq |].
    destruct Hconfig as (? & ? & ? & ?). repeat split; congruence.
Qed.


(** X5: a [with] block on a CSV logger whose path is new, or is overwritten,
    that handles a batch of events returns normally and leaves a file made
    of the header row followed by the rows of the batch. *)
Theorem csv_with_logs_batch (self : CSVLogger.t) (path : string)
    (events : list td.sensor_event) (heartbeat : option Heartbeat.t)
    (sensors : option (list Z)) (silent verbose : bool) (w : world) :
  CSVLogger.logfile self = PStr path ->
  files w !! path = None
  \/ (CSVLogger.force_create self = true
      /\ exists rows, files w !! path = Some (RegularFile rows)) ->
  exists w' handler',
    with_ self (fun sensor_data_logger =>
      process_pending_callbacks strftime_localtime events
        (SensorEventHandler.__init__ sensor_data_logger heartbeat sensors silent verbose)) w
    = (w', Return handler')
    /\ file_rows w' path = Some (CSVLogger.HEADER :: logged_rows sensors events).
Proof.
  intros Hpath Hcase. unfold with_, bind at 1. simpl __enter__.
  rewrite (enter_new_file self path w Hpath Hcase).
  destruct (process_pending_callbacks_csv events
              (SensorEventHandler.__init__ (entered self path) heartbeat sensors silent verbose)
              {| name := path; closed := false |} [CSVLogger.HEADER]
              (set_rows path [CSVLogger.HEADER] w) (opened_set_rows _ _ _ _))
    as (w' & handler' & Hrun & Hfiles & _).
  rewrite Hrun. exists w', handler'. split; [reflexivity |].
  unfold file_rows. rewrite Hfiles. simpl. by rewrite lookup_insert_eq.
Qed.
End CsvBatches.


Lemma csv_with_logs_batch_witness :
  exists w' handler',
    with_ (CSVLogger.__init__ (PStr "out.csv") false) (fun sensor_data_logger =>
      process_pending_callbacks utc_strftime
        [td.MakeEvent "oregon" "temp1" 5 1 "21.5" 1700000000 0]
        (SensorEventHandler.__init__ sensor_data_logger None None false false)) empty_world
    = (w', Return handler')
    /\ file_rows w' "out.csv"
       = Some [CSVLogger.HEADER; [CInt 1700000000; CInt 5; CStr "21.5"; CStr ""]].
Proof.
  apply (csv_with_logs_batch utc_strftime (CSVLogger.__init__ (PStr "out.csv") false) "out.csv"
           [td.MakeEvent "oregon" "temp1" 5 1 "21.5" 1700000000 0] None None false false
           empty_world); [reflexivity | left; reflexivity].
Defined.

(** ** Sequences of heartbeat calls *)

Lemma erase_beat k f w :
  prints (Heartbeat.erase (beat k f)) w (if f then [Printed backspace ""] else []) (beat k true).
Proof. apply (erase_prints (beat k f)). Qed.

Lemma dont_flush_beat k f w : prints (Heartbeat.dont_flush (beat k f)) w [] (beat k false).
Proof. unfold Heartbeat.dont_flush. apply prints_ret. Qed.

Lemma clean_up_beat k f w :
  prints (Heartbeat.clean_up (beat k f)) w
    (replicate (if f then 3 else 2) (Printed backspace "")) (beat k true).
Proof.
  destruct f; unfold prints, Heartbeat.clean_up, Heartbeat.erase, for_range,
    bind, ret, print, emit, beat; simpl; by rewrite <- ?app_assoc, ?world_eta.
Qed.

Lemma glyphs_backspaces n : Heartbeat.glyphs (replicate n (Printed backspace "")) = [].
Proof. induction n as [| n IH]; [done |]. simpl replicate. exact IH. Qed.

Lemma call_beat (c : heartbeat_call) k f w :
  exists tr f',
    prints (call c (beat k f)) w tr (beat (print_outputs [c] + k) f')
    /\ Heartbeat.glyphs tr = map cycle_glyph (seq k (print_outputs [c])).
Proof.
  destruct c; simpl call; simpl print_outputs.
  - eexists _, _. split; [apply erase_beat | by destruct f].
  - eexists _, _. split; [apply dont_flush_beat | done].
  - eexists _, _. split; [apply clean_up_beat | apply glyphs_backspaces].
  - eexists _, _. split; [apply print_output_prints |].
    rewrite glyphs_app, glyphs_glyph. by destruct f.
Qed.

(** X6: whatever sequence of [erase], [dont_flush], [clean_up] and
    [print_output] is called on a fresh heartbeat, no call raises, the glyph
    index is the number of [print_output] calls modulo 4, and the glyphs
    printed are ['-'], ['\'], ['|'], ['/'] in turn, one for each
    [print_output] call. *)
Theorem heartbeat_calls_cycle (cs : list heartbeat_call) (w : world) :
  exists tr self,
    prints (calls cs Heartbeat.__init__) w tr self
    /\ Heartbeat.current_char self = Z.of_nat (print_outputs cs mod 4)
    /\ 0 <= Heartbeat.current_char self < 4
    /\ Heartbeat.glyphs tr = map cycle_glyph (seq 0 (print_outputs cs)).
Proof.
  assert (forall cs k f w, exists tr f',
            prints (calls cs (beat k f)) w tr (beat (print_outputs cs + k) f')
            /\ Heartbeat.glyphs tr = map cycle_glyph (seq k (print_outputs cs))) as Hgen.
  { clear cs w. induction cs as [| c cs IH]; intros k f w.
    - exists [], f. split; [apply prints_ret | done].
    - destruct (call_beat c k f w) as (tr1 & f1 & Hcall & Hglyphs1).
      destruct (IH (print_outputs [c] + k)%nat f1
                  {| stdout := stdout w ++ tr1; files := files w |})
        as (tr2 & f2 & Hrest & Hglyphs2).
      exists (tr1 ++ tr2), f2.
      assert (print_outputs (c :: cs) = (print_outputs [c] + print_outputs cs)%nat) as Hcount
        by (by destruct c).
      split.
      + simpl calls. eapply prints_bind; [exact Hcall |].
        by replace (print_outputs (c :: cs) + k)%nat
          with (print_outputs cs + (print_outputs [c] + k))%nat by lia.
      + rewrite glyphs_app, Hglyphs1, Hglyphs2, Hcount, seq_app, map_app.
        by rewrite (Nat.add_comm k). }
  destruct (Hgen cs 0%nat false w) as (tr & f' & Hrun & Hglyphs).
  rewrite <- init_is_beat, Nat.add_0_r in Hrun.
  exists tr, (beat (print_outputs cs) f'). split; [exact Hrun |].
  split; [reflexivity |]. split; [| exact Hglyphs].
  simpl. pose proof (Nat.mod_upper_bound (print_outputs cs) 4). lia.
Qed.

(** ** The heartbeat in the handler *)

Section HeartbeatInHandler.
Context {L : Type} `{LoggerClass L}.
Variable strftime_localtime : Z -> string.

Lemma handle_loop_beat (self : SensorEventHandler.t L) k f w :
  prints (SensorEventHandler.handle_loop (with_heartbeat (Some (beat k f)) self)) w
    ((if f then [Printed backspace ""] else []) ++ [Printed (cycle_glyph k) ""; Flush])
    (with_heartbeat (Some (beat (S k) true)) self).
Proof.
  unfold SensorEventHandler.handle_loop. simpl SensorEventHandler.heartbeat.
  rewrite <- (app_nil_r (_ ++ [_; _])).
  eapply prints_bind; [apply print_output_prints | apply prints_ret].
Qed.

Lemma poll_idle N : forall (self : SensorEventHandler.t L) k f w,
  prints (poll strftime_localtime (replicate N []) (with_heartbeat (Some (beat k f)) self)) w
    (beats k f N)
    (with_heartbeat (Some (beat (N + k) (negb (Nat.eqb N 0) || f))) self).
Proof.
  induction N as [| N IH]; intros self k f w.
  - simpl. apply prints_ret.
  - simpl replicate. simpl poll. rewrite beats_S.
    apply (prints_bind _ _ w [] _ _ _ (prints_ret _ w)).
    eapply prints_bind; [apply handle_loop_beat |].
    replace (S N + k)%nat with (N + S k)%nat by lia.
    specialize (IH self (S k) true
      {| stdout := (stdout w ++ []) ++ (if f then [Printed backspace ""] else [])
                     ++ [Printed (cycle_glyph k) ""; Flush];
         files := files w |}).
    simpl negb. rewrite orb_true_r in IH. exact IH.
Qed.

Lemma handle_exit_beat (self : SensorEventHandler.t L) k f w :
  prints (SensorEventHandler.handle_exit (with_heartbeat (Some (beat k f)) self)) w
    (replicate (if f then 3 else 2) (Printed backspace ""))
    (with_heartbeat (Some (beat k true)) self).
Proof.
  unfold SensorEventHandler.handle_exit. simpl SensorEventHandler.heartbeat.
  rewrite <- (app_nil_r (replicate _ _)).
  eapply prints_bind; [apply clean_up_beat | apply prints_ret].
Qed.

(** X7: with the heartbeat enabled, [N] polls without sensor events followed
    by the interrupt print the [N] glyphs of the cycle and then the
    backspaces of [clean_up]: for [N >= 1] that is [N + 2] backspaces in
    all; the logger is not called and no file changes. *)
Theorem idle_loop_heartbeat (core : td.TelldusCore) (self : SensorEventHandler.t L)
    (N : nat) (w : world) :
  td.pending core = replicate N [] ->
  SensorEventHandler.heartbeat self = Some Heartbeat.__init__ ->
  (1 <= N)%nat ->
  let run := sensor_event_loop strftime_localtime core self in
  prints run w (beats 0 false N ++ replicate 3 (Printed backspace ""))
    (with_heartbeat (Some (beat N true)) self)
  /\ Heartbeat.glyphs (emitted run w) = map cycle_glyph (seq 0 N)
  /\ Heartbeat.erases (emitted run w) = (N + 2)%nat.
Proof.
  intros Hpending Hheartbeat HN run.
  assert (prints run w (beats 0 false N ++ replicate 3 (Printed backspace ""))
            (with_heartbeat (Some (beat N true)) self)) as Hrun.
  { subst run. unfold sensor_event_loop. rewrite Hpending.
    rewrite <- (with_heartbeat_same self) at 1. rewrite Hheartbeat, init_is_beat.
    eapply prints_bind; [apply poll_idle |].
    rewrite Nat.add_0_r. destruct N as [| N]; [lia |]. apply handle_exit_beat. }
  split; [exact Hrun |]. rewrite (prints_emitted _ _ _ _ Hrun).
  rewrite glyphs_app, erases_app, glyphs_beats, erases_beats, glyphs_backspaces, app_nil_r.
  split; [done |]. change (Heartbeat.erases (replicate 3 (Printed backspace ""))) with 3%nat.
  lia.
Qed.
End HeartbeatInHandler.

Lemma idle_loop_heartbeat_witness :
  let handler :=
    SensorEventHandler.__init__ (Logger.__init__ PNone false) (Some Heartbeat.__init__) None
      false false in
  let run := sensor_event_loop utc_strftime (td.MakeCore [] [[]; []]) handler in
  prints run empty_world
    [Printed "-" ""; Flush; Printed backspace ""; Printed "\" ""; Flush;
     Printed backspace ""; Printed backspace ""; Printed backspace ""]
    (with_heartbeat (Some (beat 2 true)) handler)
  /\ Heartbeat.glyphs (emitted run empty_world) = ["-"; "\"]
  /\ Heartbeat.erases (emitted run empty_world) = 4%nat.
Proof.
  intros handler run.
  apply (idle_loop_heartbeat utc_strftime (td.MakeCore [] [[]; []]) handler 2 empty_world);
    [reflexivity | reflexivity | lia].
Defined.

(** ** Runs without a logfile *)

Section InertLogger.
Context {L : Type} `{LoggerClass L}.
Variable strftime_localtime : Z -> string.











End InertLogger.








(** ** The handler and the allowlist *)

Section Allowlist.
Context {L : Type} `{LoggerClass L}.
Variable strftime_localtime : Z -> string.

(** X10: a reading that the allowlist accepts is handled exactly as it is
    without an allowlist, whatever the logger is: same output, same calls
    of the logger, same result, up to the allowlist kept in the handler. *)
Theorem accepted_as_unfiltered (self : SensorEventHandler.t L)
    (protocol model : string) (id_ datatype : Z) (value : string) (timestamp cid : Z)
    (w : world) :
  SensorEventHandler.accepts (SensorEventHandler.sensors self) id_ = true ->
  SensorEventHandler.handle_sensor_event strftime_localtime self
    protocol model id_ datatype value timestamp cid w
  = (let* handler :=
       SensorEventHandler.handle_sensor_event strftime_localtime (with_sensors None self)
         protocol model id_ datatype value timestamp cid in
     ret (with_sensors (SensorEventHandler.sensors self) handler)) w.
Proof.
  intros Haccepts. unfold SensorEventHandler.handle_sensor_event. rewrite Haccepts.
  destruct self as [l hb s silent verbose]. simpl.
  unfold SensorEventHandler.print_sensor_data, with_sensors, bind, ret. simpl.
  destruct silent; simpl.
  - by destruct (log_sensor_data l protocol model id_ datatype value timestamp cid w)
      as [w1 [l1 | e]].
  - destruct hb as [[c [|]] |]; simpl;
      by destruct (log_sensor_data l protocol model id_ datatype value timestamp cid _)
        as [w1 [l1 | e]].
Qed.
End Allowlist.

Lemma accepted_as_unfiltered_witness :
  let handler :=
    SensorEventHandler.__init__ (CSVLoggerObject open_logger) None (Some [1; 5]) false false in
  SensorEventHandler.handle_sensor_event utc_strftime handler
    "oregon" "temp1" 5 1 "21.5" 1700000000 0 logging_world
  = (let* handler' :=
       SensorEventHandler.handle_sensor_event utc_strftime (with_sensors None handler)
         "oregon" "temp1" 5 1 "21.5" 1700000000 0 in
     ret (with_sensors (Some [1; 5]) handler')) logging_world.
Proof.
  intros handler.
  apply (accepted_as_unfiltered utc_strftime handler
           "oregon" "temp1" 5 1 "21.5" 1700000000 0 logging_world).
  vm_compute. reflexivity.
Defined.

(** ** Readings of an unknown datatype *)

Lemma datatype_to_string_unknown (datatype : Z) :
  datatype <> 1 -> datatype <> 2 -> SensorData.datatype_to_string datatype = "unknown".
Proof.
  intros Hne1 Hne2. unfold SensorData.datatype_to_string, SensorData.DATATYPE_MAP.
  by rewrite lookup_insert_ne, lookup_insert_ne, lookup_empty.
Qed.

(** X11: a reading whose datatype is neither temperature nor humidity, when
    accepted by a handler that is not silent, is printed with the name
    [unknown] and is not logged: the CSV logger, opened or not, leaves every
    file as it is and raises nothing. *)
Theorem unknown_datatype_printed_not_logged (strftime_localtime : Z -> string)
    (self : SensorEventHandler.t CSVLogger.t) (e : td.sensor_event) (w : world) :
  td.ev_datatype e <> 1 ->
  td.ev_datatype e <> 2 ->
  SensorEventHandler.silent self = false ->
  SensorEventHandler.accepts (SensorEventHandler.sensors self) (td.ev_id e) = true ->
  let line :=
    strftime_localtime (td.ev_timestamp e) +:+ " SENSOR " +:+ py_int_str (td.ev_id e)
      +:+ " [" +:+ td.ev_protocol e +:+ "/" +:+ td.ev_model e +:+ "] unknown value: "
      +:+ td.ev_value e in
  SensorEventHandler.handle_sensor_event strftime_localtime self
    (td.ev_protocol e) (td.ev_model e) (td.ev_id e) (td.ev_datatype e)
    (td.ev_value e) (td.ev_timestamp e) (td.ev_cid e) w
  = ({| stdout := stdout w ++ reading_trace (SensorEventHandler.heartbeat self) line;
        files := files w |},
     Return (with_heartbeat (after_reading (SensorEventHandler.heartbeat self)) self)).
Proof.
  intros Hne1 Hne2 Hsilent Haccepts line.
  unfold SensorEventHandler.handle_sensor_event. rewrite Haccepts.
  pose proof (print_sensor_data_runs strftime_localtime self (sensor_data_of e) w Hsilent)
    as Hprint.
  unfold prints, sensor_data_of in Hprint. unfold bind at 1. rewrite Hprint.
  assert (SensorData.__str__ strftime_localtime
            (SensorData.Make (td.ev_protocol e) (td.ev_model e) (td.ev_id e)
               (td.ev_datatype e) (td.ev_value e) (td.ev_timestamp e) (td.ev_cid e)) = line)
    as ->.
  { unfold SensorData.__str__. simpl. by rewrite (datatype_to_string_unknown _ Hne1 Hne2). }
  unfold bind. simpl log_sensor_data. unfold CSVLogger.log_sensor_data.
  unfold const.TELLSTICK_TEMPERATURE, const.TELLSTICK_HUMIDITY.
  rewrite (proj2 (Z.eqb_neq _ _) Hne1), (proj2 (Z.eqb_neq _ _) Hne2).
  by destruct self.
Qed.

Lemma unknown_datatype_printed_not_logged_witness :
  let handler :=
    SensorEventHandler.__init__ open_logger None None false false in
  SensorEventHandler.handle_sensor_event utc_strftime handler
    "oregon" "wind" 5 4 "3.2" 1700000000 0 logging_world
  = ({| stdout := [Printed "2023-11-14 22:13:20 SENSOR 5 [oregon/wind] unknown value: 3.2"
                     newline];
        files := files logging_world |},
     Return handler).
Proof.
  intros handler.
  apply (unknown_datatype_printed_not_logged utc_strftime handler
           (td.MakeEvent "oregon" "wind" 5 4 "3.2" 1700000000 0) logging_world);
    (reflexivity || discriminate).
Defined.

(** ** Listing the sensors *)

Section Listing.
Variable strftime_localtime : Z -> string.

Lemma sensor_columns_pure (sensor : td.Sensor) (w : world) :
  fst (sensor_columns sensor w) = w.
Proof.
  unfold sensor_columns, bind, td.sensor_value, ret. simpl.
  destruct (td.has_value sensor const.TELLSTICK_TEMPERATURE);
    destruct (td.value_of sensor const.TELLSTICK_TEMPERATURE) as [[v ts] | e]; simpl;
    destruct (td.has_value sensor const.TELLSTICK_HUMIDITY); simpl;
    try destruct (ts =? 0); reflexivity.
Qed.

Lemma sensor_row_pure (sensor : td.Sensor) (w : world) :
  fst (sensor_row strftime_localtime sensor w) = w.
Proof.
  unfold sensor_row, bind. pose proof (sensor_columns_pure sensor w) as Hpure.
  destruct (sensor_columns sensor w) as [w' [[[temperature humidity] timestamp] | e]];
    simpl in Hpure; subst w'; [| done].
  destruct (negb _); [done |]. by destruct timestamp.
Qed.

Lemma for_each_sensor_files (sensors : list td.Sensor) : forall w,
  exists tr,
    fst (for_each_sensor strftime_localtime sensors w)
    = {| stdout := stdout w ++ tr; files := files w |}.
Proof.
  induction sensors as [| sensor sensors IH]; intros w.
  - exists []. simpl. by rewrite app_nil_r, world_eta.
  - simpl for_each_sensor. unfold bind at 1 2.
    pose proof (sensor_row_pure sensor w) as Hpure.
    destruct (sensor_row strftime_localtime sensor w) as [w' [[output |] | e]];
      simpl in Hpure; subst w'.
    + destruct (IH (emit (Printed output newline) w)) as (tr & Hrest).
      exists ([Printed output newline] ++ tr). unfold println, print. simpl.
      rewrite Hrest. simpl. by rewrite <- app_assoc.
    + destruct (IH w) as (tr & Hrest). exists tr. unfold ret. simpl. exact Hrest.
    + exists []. simpl. by rewrite app_nil_r, world_eta.
Qed.

Lemma list_sensors_files (core : td.TelldusCore) (w : world) :
  exists tr,
    fst (list_sensors strftime_localtime core w)
    = {| stdout := stdout w ++ tr; files := files w |}.
Proof.
  unfold list_sensors, println, print, bind. simpl.
  destruct (for_each_sensor_files (td.sensors core)
              (emit (Printed
                 (ljust 5 "ID" +:+ " " +:+ ljust 15 "PROTOCOL" +:+ " " +:+ ljust 22 "MODEL"
                    +:+ " " +:+ ljust 8 "TEMP" +:+ " " +:+ ljust 8 "HUMIDITY" +:+ " "
                    +:+ "LAST UPDATED") newline)
                 (emit (Printed
                    ("Number of sensors: "
                       +:+ py_int_str (Z.of_nat (length (td.sensors core))) +:+ newline)
                    newline) w))) as (tr & Hrest).
  eexists (_ :: _ :: tr). rewrite Hrest. simpl. by rewrite <- !app_assoc.
Qed.

(** X12: with [--list] the program only lists: whatever the other options
    are, it prints what [list_sensors] prints, changes no file, never
    enters the event loop, and ends with [SystemExit] of status 0 unless the
    SDK raised during the listing. *)
Theorem main_list_only (args : argparse.Namespace) (core : td.TelldusCore) (w : world) :
  argparse.list args = true ->
  fst (main strftime_localtime args core w) = fst (list_sensors strftime_localtime core w)
  /\ files (fst (main strftime_localtime args core w)) = files w
  /\ snd (main strftime_localtime args core w)
     = match snd (list_sensors strftime_localtime core w) with
       | Return _ => Raise (SystemExit 0)
       | Raise e => Raise e
       end
  /\ (forall u, snd (list_sensors strftime_localtime core w) = Return u ->
      exit_status (snd (main strftime_localtime args core w)) = 0).
Proof.
  intros Hlist. unfold main. rewrite Hlist. unfold bind, exit, raise.
  destruct (list_sensors_files core w) as (tr & Hfiles).
  destruct (list_sensors strftime_localtime core w) as [w' [[] | e]] eqn:Hrun;
    simpl in *; subst w'; repeat split; try done.
Qed.

(** X13: a sensor that has neither a temperature nor a humidity value gets
    no row; when no sensor has a value, the listing is the line with the
    number of sensors, followed by an empty line, and the header line. *)
Theorem list_sensors_without_values (core : td.TelldusCore) (w : world) :
  Forall (fun sensor =>
            td.has_value sensor const.TELLSTICK_TEMPERATURE = false
            /\ td.has_value sensor const.TELLSTICK_HUMIDITY = false) (td.sensors core) ->
  prints (list_sensors strftime_localtime core) w
    [Printed ("Number of sensors: " +:+ py_int_str (Z.of_nat (length (td.sensors core)))
                +:+ newline) newline;
     Printed "ID    PROTOCOL        MODEL                  TEMP     HUMIDITY LAST UPDATED"
       newline]
    tt.
Proof.
  intros Hnone.
  assert (forall w, prints (for_each_sensor strftime_localtime (td.sensors core)) w [] tt)
    as Hrows.
  { induction Hnone as [| sensor sensors (Htemp & Hhum) _ IH]; intros w0.
    - apply prints_ret.
    - simpl for_each_sensor.
      assert (sensor_row strftime_localtime sensor w0 = (w0, Return None)) as Hrow.
      { unfold sensor_row, sensor_columns, bind, ret. simpl. by rewrite Htemp, Hhum. }
      unfold prints, bind at 1 2. rewrite Hrow. unfold ret at 1. apply IH. }
  unfold list_sensors.
  apply (prints_bind _ _ w [_] [_] tt tt (prints_print _ _ w)).
  apply (prints_bind _ _ _ [_] [] tt tt (prints_print _ _ _)).
  apply Hrows.
Qed.

(** X14: a sensor that has a temperature value only, not empty, gets the
    row with that value in the temperature column, an empty humidity column
    and the time of the temperature value. *)
Theorem sensor_row_temperature_only (sensor : td.Sensor) (temperature : td.SensorValue)
    (w : world) :
  td.has_value sensor const.TELLSTICK_TEMPERATURE = true ->
  td.has_value sensor const.TELLSTICK_HUMIDITY = false ->
  td.value_of sensor const.TELLSTICK_TEMPERATURE = Return temperature ->
  td.value temperature <> "" ->
  sensor_row strftime_localtime sensor w
  = (w, Return (Some (format_row (td.id sensor) (td.protocol sensor) (td.model sensor)
                        (td.value temperature) ""
                        (strftime_localtime (td.timestamp temperature))))).
Proof.
  intros Htemp Hhum Hvalue Hnonempty.
  unfold sensor_row, sensor_columns, bind, td.sensor_value, ret.
  rewrite Htemp, Hvalue, Hhum. simpl.
  by rewrite (bool_decide_eq_false_2 _ Hnonempty).
Qed.
End Listing.

Lemma main_list_only_witness :
  fst (main utc_strftime
         {| argparse.heartbeat := true; argparse.logfile := PList ["out.csv"];
            argparse.logtype := PList ["SQLite"]; argparse.overwrite := true;
            argparse.sensors := None; argparse.silent := false; argparse.verbose := false;
            argparse.list := true |}
         (td.MakeCore [both_values] []) empty_world)
  = fst (list_sensors utc_strftime (td.MakeCore [both_values] []) empty_world).
Proof.
  apply (main_list_only utc_strftime
           {| argparse.heartbeat := true; argparse.logfile := PList ["out.csv"];
              argparse.logtype := PList ["SQLite"]; argparse.overwrite := true;
              argparse.sensors := None; argparse.silent := false; argparse.verbose := false;
              argparse.list := true |}
           (td.MakeCore [both_values] []) empty_world).
  reflexivity.
Defined.

Lemma list_sensors_without_values_witness :
  prints (list_sensors utc_strftime (td.MakeCore [no_values] [])) empty_world
    [Printed ("Number of sensors: 1" +:+ newline) newline;
     Printed "ID    PROTOCOL        MODEL                  TEMP     HUMIDITY LAST UPDATED"
       newline]
    tt.
Proof.
  apply (list_sensors_without_values utc_strftime (td.MakeCore [no_values] []) empty_world).
  repeat constructor.
Defined.

Lemma sensor_row_temperature_only_witness :
  sensor_row utc_strftime temperature_only empty_world
  = (empty_world,
     Return (Some "3     fineoffset      temperature            -4.5              2023-11-14 22:13:20")).
Proof.
  apply (sensor_row_temperature_only utc_strftime temperature_only
           (td.MakeValue "-4.5" 1700000000) empty_world); (reflexivity || discriminate).
Defined.

(** ** The main program with a logfile *)

(** X15: when [--logfile] is given, its value reaches the program as a list
    of one string.  With the default logtype, [os.path.exists] on that list
    raises [TypeError] before any file is opened; with [--logtype] given,
    whatever the choice, [logger] is not bound and [NameError] is raised.
    In both cases nothing is printed, no file changes and the exit status
    is 1. *)
Theorem main_logfile_raises (strftime_localtime : Z -> string) (args : argparse.Namespace)
    (core : td.TelldusCore) (path : string) (w : world) :
  argparse.list args = false ->
  argparse.logfile args = PList [path] ->
  (argparse.logtype args = PStr "CSV" ->
     main strftime_localtime args core w = (w, Raise TypeError))
  /\ (forall choice, argparse.logtype args = PList [choice] ->
        main strftime_localtime args core w = (w, Raise (NameError "logger")))
  /\ (argparse.logtype args = PStr "CSV" \/ (exists choice, argparse.logtype args = PList [choice]) ->
        fst (main strftime_localtime args core w) = w
        /\ exit_status (snd (main strftime_localtime args core w)) = 1).
Proof.
  intros Hlist Hlogfile.
  assert (argparse.logtype args = PStr "CSV" ->
          main strftime_localtime args core w = (w, Raise TypeError)) as Hdefault.
  { intros Hlogtype. unfold main. by rewrite Hlist, Hlogfile, Hlogtype. }
  assert (forall choice, argparse.logtype args = PList [choice] ->
          main strftime_localtime args core w = (w, Raise (NameError "logger"))) as Hgiven.
  { intros choice Hlogtype. unfold main. by rewrite Hlist, Hlogfile, Hlogtype. }
  split; [exact Hdefault |]. split; [exact Hgiven |].
  intros [Hlogtype | (choice & Hlogtype)].
  - by rewrite (Hdefault Hlogtype).
  - by rewrite (Hgiven choice Hlogtype).
Qed.

Lemma main_logfile_raises_witness :
  main utc_strftime
    {| argparse.heartbeat := false; argparse.logfile := PList ["out.csv"];
       argparse.logtype := PStr "CSV"; argparse.overwrite := false;
       argparse.sensors := None; argparse.silent := false; argparse.verbose := false;
       argparse.list := false |}
    (td.MakeCore [] []) empty_world
  = (empty_world, Raise TypeError).
Proof.
  apply (main_logfile_raises utc_strftime
           {| argparse.heartbeat := false; argparse.logfile := PList ["out.csv"];
              argparse.logtype := PStr "CSV"; argparse.overwrite := false;
              argparse.sensors := None; argparse.silent := false; argparse.verbose := false;
              argparse.list := false |}
           (td.MakeCore [] []) "out.csv" empty_world); reflexivity.
Defined.

(** ** Logging outside the [with] block *)

(** X16: on a logger that was never entered, [log_sensor_data] of a
    temperature or humidity reading raises [AttributeError]; on a logger
    that [__exit__] has closed it raises [ValueError].  In both cases no
    file changes. *)
Theorem csv_log_outside_with (self : CSVLogger.t) (path : string) (e : td.sensor_event)
    (r : row) (w : world) :
  row_of_event e = Some r ->
  CSVLogger.log_sensor_data (CSVLogger.__init__ (CSVLogger.logfile self)
                               (CSVLogger.force_create self))
    (td.ev_protocol e) (td.ev_model e) (td.ev_id e) (td.ev_datatype e)
    (td.ev_value e) (td.ev_timestamp e) (td.ev_cid e) w
  = (w, Raise (AttributeError "csvwriter"))
  /\ (let* closed_logger := CSVLogger.__exit__ (entered self path) in
      CSVLogger.log_sensor_data closed_logger
        (td.ev_protocol e) (td.ev_model e) (td.ev_id e) (td.ev_datatype e)
        (td.ev_value e) (td.ev_timestamp e) (td.ev_cid e)) w
     = (w, Raise ValueError).
Proof.
  intros Hrow. unfold row_of_event in Hrow.
  unfold CSVLogger.log_sensor_data, CSVLogger.__exit__, CSVLogger.__close_log_file, bind, ret.
  simpl.
  destruct (td.ev_datatype e =? const.TELLSTICK_TEMPERATURE); [done |].
  destruct (td.ev_datatype e =? const.TELLSTICK_HUMIDITY); [done | discriminate].
Qed.

Lemma csv_log_outside_with_witness :
  CSVLogger.log_sensor_data (CSVLogger.__init__ (PStr "out.csv") false)
    "oregon" "temp1" 5 1 "21.5" 1700000000 0 logging_world
  = (logging_world, Raise (AttributeError "csvwriter"))
  /\ (let* closed_logger := CSVLogger.__exit__ open_logger in
      CSVLogger.log_sensor_data closed_logger "oregon" "temp1" 5 1 "21.5" 1700000000 0)
       logging_world
     = (logging_world, Raise ValueError).
Proof.
  apply (csv_log_outside_with open_logger "out.csv"
           (td.MakeEvent "oregon" "temp1" 5 1 "21.5" 1700000000 0)
           [CInt 1700000000; CInt 5; CStr "21.5"; CStr ""] logging_world).
  reflexivity.
Defined.

(** ** The width of the table *)

Lemma string_length_append (s t : string) :
  String.length (s +:+ t) = (String.length s + String.length t)%nat.
Proof. induction s as [| c s IH]; [done |]. simpl. by rewrite IH. Qed.

Lemma string_length_of_list (l : list ascii) :
  String.length (string_of_list_ascii l) = length l.
Proof. induction l as [| c l IH]; [done |]. simpl. by rewrite IH. Qed.

Lemma ljust_length (n : nat) (s : string) :
  String.length (ljust n s) = Nat.max n (String.length s).
Proof.
  unfold ljust. rewrite string_length_append, string_length_of_list, length_replicate. lia.
Qed.

Lemma string_append_assoc (s t u : string) : (s +:+ t) +:+ u = s +:+ (t +:+ u).
Proof.
  induction s as [| c s IH]; [done |].
  change (String c ((s +:+ t) +:+ u) = String c (s +:+ (t +:+ u))). by rewrite IH.
Qed.

Lemma substring_whole (t : string) : substring 0 (String.length t) t = t.
Proof. induction t as [| c t IH]; [done |]. simpl. by rewrite IH. Qed.

Lemma substring_after (p t : string) :
  substring (String.length p) (String.length t) (p +:+ t) = t.
Proof. induction p as [| c p IH]; [apply substring_whole | exact IH]. Qed.

(** X17: [ljust] never cuts its text and pads it to the width; so a row of
    the table whose ID, protocol, model and values fit their columns has
    its timestamp at column 63, under the [LAST UPDATED] of the header,
    and a field that is too long pushes the rest of the row to the right. *)
Theorem format_row_width (id : Z)
    (protocol model temperature humidity timestamp_formatted : string) :
  String.length (format_row id protocol model temperature humidity timestamp_formatted)
  = (Nat.max 5 (String.length (py_int_str id)) + 1 + Nat.max 15 (String.length protocol) + 1
     + Nat.max 22 (String.length model) + 1 + Nat.max 9 (String.length temperature)
     + Nat.max 9 (String.length humidity) + String.length timestamp_formatted)%nat
  /\ ((String.length (py_int_str id) <= 5)%nat -> (String.length protocol <= 15)%nat ->
      (String.length model <= 22)%nat -> (String.length temperature <= 9)%nat ->
      (String.length humidity <= 9)%nat ->
      String.length (format_row id protocol model temperature humidity timestamp_formatted)
      = (63 + String.length timestamp_formatted)%nat
      /\ substring 63 (String.length timestamp_formatted)
           (format_row id protocol model temperature humidity timestamp_formatted)
         = timestamp_formatted)
  /\ substring 63 12
       "ID    PROTOCOL        MODEL                  TEMP     HUMIDITY LAST UPDATED"
     = "LAST UPDATED".
Proof.
  set (columns := ljust 5 (py_int_str id) +:+ " " +:+ ljust 15 protocol +:+ " "
                    +:+ ljust 22 model +:+ " " +:+ ljust 9 temperature +:+ ljust 9 humidity).
  assert (format_row id protocol model temperature humidity timestamp_formatted
          = columns +:+ timestamp_formatted) as Hrow.
  { unfold format_row, columns. by rewrite !string_append_assoc. }
  assert (String.length columns
          = (Nat.max 5 (String.length (py_int_str id)) + 1
             + Nat.max 15 (String.length protocol) + 1
             + Nat.max 22 (String.length model) + 1 + Nat.max 9 (String.length temperature)
             + Nat.max 9 (String.length humidity))%nat) as Hcolumns.
  { unfold columns. rewrite !string_length_append, !ljust_length. simpl String.length. lia. }
  rewrite Hrow, string_length_append, Hcolumns. split; [lia |]. split; [| reflexivity].
  intros Hid Hprotocol Hmodel Htemperature Hhumidity.
  assert (String.length columns = 63%nat) as H63 by lia.
  split; [lia |]. rewrite <- H63. apply substring_after.
Qed.

Lemma format_row_width_witness :
  String.length (format_row 7 "oregon" "1A2D" "21.5" "40" "2023-11-14 22:13:20") = 82%nat
  /\ substring 63 19 (format_row 7 "oregon" "1A2D" "21.5" "40" "2023-11-14 22:13:20")
     = "2023-11-14 22:13:20".
Proof.
  apply (proj1 (proj2 (format_row_width 7 "oregon" "1A2D" "21.5" "40" "2023-11-14 22:13:20")));
    vm_compute; lia.
Defined.

(** ** Appending to an existing logfile *)

(** X18: in append mode, a [with] block on an existing logfile that handles
    a batch of events returns normally and leaves the rows the file had,
    followed by the rows of the batch: no row is lost and no header is
    added. *)
Theorem csv_with_appends_batch (strftime_localtime : Z -> string) (self : CSVLogger.t)
    (path : string) (rows : list row) (events : list td.sensor_event)
    (heartbeat : option Heartbeat.t) (sensors : option (list Z)) (silent verbose : bool)
    (w : world) :
  CSVLogger.logfile self = PStr path ->
  CSVLogger.force_create self = false ->
  files w !! path = Some (RegularFile rows) ->
  exists w' handler',
    with_ self (fun sensor_data_logger =>
      process_pending_callbacks strftime_localtime events
        (SensorEventHandler.__init__ sensor_data_logger heartbeat sensors silent verbose)) w
    = (w', Return handler')
    /\ file_rows w' path = Some (rows ++ logged_rows sensors events)
    /\ (forall other, other <> path -> files w' !! other = files w !! other).
Proof.
  intros Hpath Hforce Hfile. unfold with_, bind at 1. simpl __enter__.
  rewrite (enter_existing_file self path rows w Hpath Hforce Hfile).
  assert (opened (entered self path) w {| name := path; closed := false |} rows) as Hopen.
  { repeat split. unfold file_rows. simpl. by rewrite Hfile. }
  destruct (process_pending_callbacks_csv strftime_localtime events
              (SensorEventHandler.__init__ (entered self path) heartbeat sensors silent verbose)
              {| name := path; closed := false |} rows w Hopen)
    as (w' & handler' & Hrun & Hfiles & _).
  rewrite Hrun. exists w', handler'. split; [reflexivity |].
  simpl in Hfiles. split.
  - unfold file_rows. by rewrite Hfiles, lookup_insert_eq.
  - intros other Hne. rewrite Hfiles. by apply lookup_insert_ne.
Qed.

Lemma csv_with_appends_batch_witness :
  exists w' handler',
    with_ (CSVLogger.__init__ (PStr "out.csv") false) (fun sensor_data_logger =>
      process_pending_callbacks utc_strftime
        [td.MakeEvent "oregon" "temp1" 5 2 "40" 1700000000 0]
        (SensorEventHandler.__init__ sensor_data_logger None None true false)) logging_world
    = (w', Return handler')
    /\ file_rows w' "out.csv"
       = Some [CSVLogger.HEADER; [CInt 1700000000; CInt 5; CStr ""; CStr "40"]]
    /\ (forall other, other <> "out.csv" -> files w' !! other = files logging_world !! other).
Proof.
  apply (csv_with_appends_batch utc_strftime (CSVLogger.__init__ (PStr "out.csv") false)
           "out.csv" [CSVLogger.HEADER]
           [td.MakeEvent "oregon" "temp1" 5 2 "40" 1700000000 0] None None true false
           logging_world); reflexivity.
Defined.

(** ** The console *)

Section Console.
Context {L : Type} `{LoggerClass L}.
Variable strftime_localtime : Z -> string.


End Console.

